(** * linkedin_scraper.py: the fetch / retry / proxy-rotation loop

    A shallow embedding of [LinkedInScraper] (src/linkedin_scraper.py)
    and the properties of its control loop.

    The scraper talks to four outside parties: the ProxyScrape API, the
    httpbin probe, the Chrome launcher and the browser that loads
    pages.  Their answers are given by an environment [Env] of oracles,
    indexed by the number of calls made so far, so that every
    statement below holds for every behaviour of the outside world.
    Python exceptions are an explicit outcome of a computation.  The
    logger has two handlers (lines 17-24): the file scraper.log, opened
    for appending, and the console; the records appended to both are a
    list, in the order of the calls.  The files other than scraper.log
    live in a finite map from paths to lists of CSV records. *)

From Stdlib Require Import ZArith Ascii String List Lia.
From stdpp Require Import base option list strings gmap.

Local Open Scope string_scope.
Local Open Scope Z_scope.
Local Open Scope nat_scope.

(** ** Python strings

    A [str] is modelled by a Rocq [string]; each character stands for
    the code point of the same number (below 256). *)
Module PyStr.

(** [needle in hay] *)
Fixpoint contains (needle hay : string) : bool :=
  String.prefix needle hay ||
  match hay with
  | EmptyString => false
  | String _ rest => contains needle rest
  end.

(** [str.lower] on one code point: A-Z, and the upper-case letters of
    the Latin-1 block (U+00C0-U+00DE without the multiplication sign). *)
Definition lower_char (c : ascii) : ascii :=
  let n := nat_of_ascii c in
  if ((65 <=? n) && (n <=? 90)) ||
     ((192 <=? n) && (n <=? 222) && negb (n =? 215))
  then ascii_of_nat (n + 32)
  else c.

Fixpoint lower (s : string) : string :=
  match s with
  | EmptyString => EmptyString
  | String c rest => String (lower_char c) (lower rest)
  end.

(** [str.isspace] on one code point. *)
Definition is_space (c : ascii) : bool :=
  let n := nat_of_ascii c in
  ((9 <=? n) && (n <=? 13)) || ((28 <=? n) && (n <=? 32)) ||
  (n =? 133) || (n =? 160).

Fixpoint lstrip (s : string) : string :=
  match s with
  | EmptyString => EmptyString
  | String c rest => if is_space c then lstrip rest else s
  end.

Fixpoint rstrip (s : string) : string :=
  match s with
  | EmptyString => EmptyString
  | String c rest =>
      match rstrip rest with
      | EmptyString => if is_space c then EmptyString else String c EmptyString
      | r => String c r
      end
  end.

(** [s.strip()] *)
Definition strip (s : string) : string := rstrip (lstrip s).

(** The position of the first space, as the pair of what is before
    and what is after it. *)
Fixpoint cut_at_space (s : string) : option (string * string) :=
  match s with
  | EmptyString => None
  | String c rest =>
      if Ascii.eqb c " "%char then Some (EmptyString, rest)
      else match cut_at_space rest with
           | Some (a, b) => Some (String c a, b)
           | None => None
           end
  end.

(** [s.split(' ', 1)] *)
Definition split_space_1 (s : string) : list string :=
  match cut_at_space s with
  | Some (a, b) => [a; b]
  | None => [s]
  end.

Arguments strip : simpl never.

(** Truth value of a [str]. *)
Definition truthy (s : string) : bool :=
  match s with EmptyString => false | _ => true end.

(** Truth value of an [Optional[str]]. *)
Definition truthy_opt (o : option string) : bool :=
  match o with Some s => truthy s | None => false end.

End PyStr.

(** ** The outside world *)

(** What [requests.get] gives: an exception, or a response. *)
Inductive HttpReply :=
| HttpError
| HttpResponse (status_code : Z) (text : string).

(** What the browser shows after [driver.get] and the wait for [body]. *)
Record Page := {
  title : string;
  current_url : string;
  page_source : string
}.

Inductive Navigation :=
| NavError
| NavLoaded (p : Page).

(** [webdriver.Chrome(options)], with or without [--proxy-server]. *)
Record Driver := {
  drv_proxy : option string;
  drv_quit : bool
}.

Record Env := {
  (** the n-th request to the ProxyScrape API *)
  proxyscrape : nat → HttpReply;
  (** the n-th probe of httpbin.org/ip, through the given proxy *)
  httpbin : nat → option string → HttpReply;
  (** whether the n-th launch of Chrome succeeds *)
  chrome : nat → bool;
  (** the n-th page load, by the given driver, of the given URL *)
  navigate : nat → Driver → string → Navigation;
  (** [soup.find('h1', {'class': 'text-heading-xlarge'})], as the
      element's [text] *)
  find_name : string → option string;
  (** [soup.find('span', {'class': 'text-body-small'})], as the
      element's [text] *)
  find_location : string → option string
}.

(** ** Exceptions, log records, CSV rows *)

Inductive Exn :=
| RequestException
| WebDriverException
| AttributeError
| FileNotFoundError
| KeyError (key : string)
| ValueError.

Inductive LogMsg :=
| SettingUpDriver
| ProxyValidationFailed
| RequestingNewProxy
| NewProxyObtained (proxy : string)
| NewProxyNotValid
| FailedToGetProxy (status_code : Z)
| ErrorGettingNewProxy
| AttemptingToExtract (profile_url : string)
| PageLoadedPausing
| ChromeErrorPage
| HitLoginWall
| NotOnLinkedIn
| ExtractionReturnedNone
| SuccessfullyExtracted (name location : string)
| ErrorExtracting
| MaxAttemptsReached
| NoProfileUrl
| ProcessingProfile (profile_url : string)
| FiveConsecutiveFailures
| ErrorProcessingProfiles.

Inductive Level := INFO | WARNING | ERROR.

(** A row of [csv.DictReader]: the cells under the header's names
    ([None] is the reader's [restval], for a record shorter than the
    header), and under the reader's [restkey] the cells of a record
    longer than the header. *)
Record Row := {
  fields : gmap string (option string);
  rest : option (list string)
}.

(** ** State *)

Record Scraper := {
  api_key : string;
  consecutive_failures : nat;
  current_proxy : option string;
  driver : option Driver
}.

(** [logging.FileHandler('scraper.log')], line 21: the file every record
    of the logger is appended to. *)
Definition log_file : string := "scraper.log".

(** The world outside the scraper object: the calls made so far, the
    records appended to [log_file] (and shown on the console), and the
    content of every file other than [log_file].  A path that [files]
    does not hold is a file that does not exist.  The CSV file that
    [process_profiles] is given is taken to be another file than
    [log_file], whose content is [log]. *)
Record World := {
  proxyscrape_calls : nat;
  httpbin_calls : nat;
  chrome_launches : nat;
  page_loads : nat;
  log : list (Level * LogMsg);
  files : gmap string (list (list string))
}.

Record State := {
  self : Scraper;
  world : World
}.

Definition proxyscrape_url : string := "https://api.proxyscrape.com/v2/".

(** ** Computations: state and exceptions *)

Inductive Outcome (A : Type) :=
| Returns (a : A)
| Raises (e : Exn).
Arguments Returns {A} a.
Arguments Raises {A} e.

Definition M (A : Type) : Type := State → Outcome A * State.

Definition ret {A} (a : A) : M A := λ s, (Returns a, s).

Definition bind {A B} (m : M A) (f : A → M B) : M B := λ s,
  match m s with
  | (Returns a, s') => f a s'
  | (Raises e, s') => (Raises e, s')
  end.

Declare Scope M_scope.
Delimit Scope M_scope with M.
Bind Scope M_scope with M.
Notation "x ← y ; z" := (bind y (λ x, z))
  (at level 20, y at level 100, z at level 200, only parsing) : M_scope.
Notation "' x ← y ; z" := (bind y (λ x, z))
  (at level 20, x pattern, y at level 100, z at level 200, only parsing) : M_scope.
Notation "y ;; z" := (bind y (λ _, z))
  (at level 100, z at level 200, only parsing, right associativity) : M_scope.
Local Open Scope M_scope.

Definition raise {A} (e : Exn) : M A := λ s, (Raises e, s).

(** [try: body except Exception as e: handler] *)
Definition try_except {A} (body : M A) (handler : Exn → M A) : M A := λ s,
  match body s with
  | (Returns a, s') => (Returns a, s')
  | (Raises e, s') => handler e s'
  end.

(** [try: body finally: cleanup] *)
Definition try_finally {A} (body : M A) (cleanup : M unit) : M A := λ s,
  match body s with
  | (r, s') =>
      match cleanup s' with
      | (Returns _, s'') => (r, s'')
      | (Raises e, s'') => (Raises e, s'')
      end
  end.

Definition get_self : M Scraper := λ s, (Returns (self s), s).

Definition get_world : M World := λ s, (Returns (world s), s).

Definition put_self (sc : Scraper) : M unit := λ s,
  (Returns tt, {| self := sc; world := world s |}).

Definition put_world (w : World) : M unit := λ s,
  (Returns tt, {| self := self s; world := w |}).

Definition set_consecutive_failures (n : nat) : M unit :=
  sc ← get_self;
  put_self {| api_key := api_key sc; consecutive_failures := n;
              current_proxy := current_proxy sc; driver := driver sc |}.

Definition set_current_proxy (p : option string) : M unit :=
  sc ← get_self;
  put_self {| api_key := api_key sc;
              consecutive_failures := consecutive_failures sc;
              current_proxy := p; driver := driver sc |}.

Definition set_driver (d : option Driver) : M unit :=
  sc ← get_self;
  put_self {| api_key := api_key sc;
              consecutive_failures := consecutive_failures sc;
              current_proxy := current_proxy sc; driver := d |}.

(** [logger.info], [logger.warning], [logger.error]: the record goes to
    both handlers of lines 17-24, that is, it is appended to [log_file]
    and shown on the console.  The file's content is [log]; the files
    of [files], which are the other ones, are not written to. *)
Definition logger (lvl : Level) (msg : LogMsg) : M unit :=
  w ← get_world;
  put_world {| proxyscrape_calls := proxyscrape_calls w;
               httpbin_calls := httpbin_calls w;
               chrome_launches := chrome_launches w;
               page_loads := page_loads w;
               log := log w ++ [(lvl, msg)];
               files := files w |}.

(** Counting the calls to the outside world. *)
Definition count_proxyscrape_call : M nat :=
  w ← get_world;
  put_world {| proxyscrape_calls := S (proxyscrape_calls w);
               httpbin_calls := httpbin_calls w;
               chrome_launches := chrome_launches w;
               page_loads := page_loads w;
               log := log w;
               files := files w |} ;;
  ret (proxyscrape_calls w).

Definition count_httpbin_call : M nat :=
  w ← get_world;
  put_world {| proxyscrape_calls := proxyscrape_calls w;
               httpbin_calls := S (httpbin_calls w);
               chrome_launches := chrome_launches w;
               page_loads := page_loads w;
               log := log w;
               files := files w |} ;;
  ret (httpbin_calls w).

Definition count_chrome_launch : M nat :=
  w ← get_world;
  put_world {| proxyscrape_calls := proxyscrape_calls w;
               httpbin_calls := httpbin_calls w;
               chrome_launches := S (chrome_launches w);
               page_loads := page_loads w;
               log := log w;
               files := files w |} ;;
  ret (chrome_launches w).

Definition count_page_load : M nat :=
  w ← get_world;
  put_world {| proxyscrape_calls := proxyscrape_calls w;
               httpbin_calls := httpbin_calls w;
               chrome_launches := chrome_launches w;
               page_loads := S (page_loads w);
               log := log w;
               files := files w |} ;;
  ret (page_loads w).

Definition set_files (fs : gmap string (list (list string))) : M unit :=
  w ← get_world;
  put_world {| proxyscrape_calls := proxyscrape_calls w;
               httpbin_calls := httpbin_calls w;
               chrome_launches := chrome_launches w;
               page_loads := page_loads w;
               log := log w;
               files := fs |}.

(** ** The scraper *)

Section LinkedInScraper.

Variable env : Env.

(** [driver.quit()]; Chrome's [quit] swallows its own errors. *)
Definition quit (d : Driver) : Driver :=
  {| drv_proxy := drv_proxy d; drv_quit := true |}.

(** [webdriver.Chrome(options=chrome_options)] *)
Definition webdriver_Chrome (proxy_server : option string) : M Driver :=
  n ← count_chrome_launch;
  if chrome env n
  then ret {| drv_proxy := proxy_server; drv_quit := false |}
  else raise WebDriverException.

(** [setup_driver], lines 36-52. *)
Definition setup_driver : M unit :=
  logger INFO SettingUpDriver ;;
  sc ← get_self;
  let proxy_server :=
    if PyStr.truthy_opt (current_proxy sc) then current_proxy sc else None in
  match driver sc with
  | Some d => set_driver (Some (quit d))
  | None => ret tt
  end ;;
  d ← webdriver_Chrome proxy_server;
  set_driver (Some d).

(** [__init__], lines 28-34. *)
Definition init (key : string) : M unit :=
  put_self {| api_key := key; consecutive_failures := 0;
              current_proxy := None; driver := None |} ;;
  setup_driver.

(** [requests.get("http://httpbin.org/ip", proxies=..., timeout=5)] *)
Definition requests_get_httpbin (proxy : option string) : M (Z * string) :=
  n ← count_httpbin_call;
  match httpbin env n proxy with
  | HttpError => raise RequestException
  | HttpResponse status_code text => ret (status_code, text)
  end.

(** [validate_proxy], lines 54-61. *)
Definition validate_proxy : M bool :=
  try_except
    (sc ← get_self;
     response ← requests_get_httpbin (current_proxy sc);
     ret (fst response =? 200)%Z)
    (λ e, logger ERROR ProxyValidationFailed ;; ret false).

(** [requests.get(f"{self.proxyscrape_url}?request=getproxies...")] *)
Definition requests_get_proxyscrape : M (Z * string) :=
  n ← count_proxyscrape_call;
  match proxyscrape env n with
  | HttpError => raise RequestException
  | HttpResponse status_code text => ret (status_code, text)
  end.

(** [get_new_proxy], lines 63-89. *)
Definition get_new_proxy : M bool :=
  try_except
    (logger INFO RequestingNewProxy ;;
     response ← requests_get_proxyscrape;
     if (fst response =? 200)%Z then
       let proxy := PyStr.strip (snd response) in
       logger INFO (NewProxyObtained proxy) ;;
       set_current_proxy (Some proxy) ;;
       valid ← validate_proxy;
       if valid then
         setup_driver ;;
         ret true
       else
         logger ERROR NewProxyNotValid ;;
         ret false
     else
       logger ERROR (FailedToGetProxy (fst response)) ;;
       ret false)
    (λ e, logger ERROR ErrorGettingNewProxy ;; ret false).

(** *** [extract_profile_info], lines 91-165 *)

Definition max_attempts : nat := 5.

(** [driver.get(profile_url)] and the wait for the [body] element; the
    title, URL and source read afterwards are one snapshot. *)
Definition driver_get (profile_url : string) : M Page :=
  sc ← get_self;
  match driver sc with
  | None => raise AttributeError
  | Some d =>
      n ← count_page_load;
      match navigate env n d profile_url with
      | NavError => raise WebDriverException
      | NavLoaded page => ret page
      end
  end.

(** The conditions of lines 111, 120, 129 and 147. *)
Definition is_error_page (page : Page) : bool :=
  PyStr.contains "error" (PyStr.lower (title page)) ||
  PyStr.contains "not found" (PyStr.lower (page_source page)).

Definition is_login_wall (page : Page) : bool :=
  PyStr.contains "login" (current_url page) ||
  PyStr.contains "authwall" (current_url page).

Definition on_linkedin (page : Page) : bool :=
  PyStr.contains "linkedin" (current_url page).

(** Lines 141-145. *)
Definition extract_name (page : Page) : option string :=
  PyStr.strip <$> find_name env (page_source page).

Definition extract_location (page : Page) : option string :=
  PyStr.strip <$> find_location env (page_source page).

Definition name_or_location_is_None (page : Page) : bool :=
  match extract_name page, extract_location page with
  | Some _, Some _ => false
  | _, _ => true
  end.

(** [self.consecutive_failures += 1] *)
Definition increment_consecutive_failures : M unit :=
  sc ← get_self;
  set_consecutive_failures (consecutive_failures sc + 1).

(** How one pass through the body of the [while] ends: back to the
    head of the loop with a new value of [attempts], or [return]. *)
Inductive Flow :=
| Continue (attempts : nat)
| Return (result : option string * option string).

(** The body of the [while] loop, lines 97-162. *)
Definition attempt (profile_url : string) (attempts : nat) : M Flow :=
  try_except
    (logger INFO (AttemptingToExtract profile_url) ;;
     page ← driver_get profile_url;
     logger INFO PageLoadedPausing ;;
     if is_error_page page then
       logger WARNING ChromeErrorPage ;;
       increment_consecutive_failures ;;
       switched ← get_new_proxy;
       if switched then ret (Continue (attempts + 1))
       else ret (Return (None, None))
     else if is_login_wall page then
       logger WARNING HitLoginWall ;;
       increment_consecutive_failures ;;
       switched ← get_new_proxy;
       if switched then ret (Continue (attempts + 1))
       else ret (Return (None, None))
     else if negb (on_linkedin page) then
       logger WARNING NotOnLinkedIn ;;
       increment_consecutive_failures ;;
       switched ← get_new_proxy;
       if switched then ret (Continue (attempts + 1))
       else ret (Return (None, None))
     else
       let name := extract_name page in
       let location := extract_location page in
       if name_or_location_is_None page then
         logger WARNING ExtractionReturnedNone ;;
         increment_consecutive_failures ;;
         switched ← get_new_proxy;
         if switched then ret (Continue (attempts + 1))
         else ret (Return (None, None))
       else
         logger INFO (SuccessfullyExtracted (default "" name)
                                            (default "" location)) ;;
         set_consecutive_failures 0 ;;
         ret (Return (name, location)))
    (λ e,
       logger ERROR ErrorExtracting ;;
       increment_consecutive_failures ;;
       ret (Continue (attempts + 1))).

(** [while attempts < max_attempts: ...], then lines 164-165.  The loop
    is unrolled at most [fuel] times; [extract_profile_info_runs]
    shows that [max_attempts] unrollings reach the end of the loop. *)
Fixpoint while_attempts (fuel : nat) (profile_url : string) (attempts : nat)
  : M (option string * option string) :=
  if attempts <? max_attempts then
    match fuel with
    | 0 => ret (None, None)
    | S fuel' =>
        flow ← attempt profile_url attempts;
        match flow with
        | Continue attempts' => while_attempts fuel' profile_url attempts'
        | Return result => ret result
        end
    end
  else
    logger ERROR MaxAttemptsReached ;;
    ret (None, None).

Definition extract_profile_info (profile_url : string)
  : M (option string * option string) :=
  while_attempts max_attempts profile_url 0.

(** *** The CSV file, lines 170-177 and 206 *)

Definition fieldnames : list string :=
  ["first_name"; "last_name"; "geo"; "prooflink"; "IP change"].

(** One row of [csv.DictReader]: [dict(zip(fieldnames, record))], then
    [restval] under the names the record does not reach, or the cells
    beyond the header under [restkey]. *)
Definition dict_of_record (header record : list string) : Row :=
  {| fields :=
       foldl (λ d kv, <[kv.1 := kv.2]> d) ∅
             (zip header (Some <$> record) ++
              ((λ key, (key, None)) <$> drop (length record) header));
     rest :=
       if length header <? length record
       then Some (drop (length header) record)
       else None |}.

Definition is_blank (record : list string) : bool :=
  match record with [] => true | _ => false end.

(** [list(csv.DictReader(file))]: the first record is the header, blank
    records are skipped. *)
Definition DictReader (records : list (list string)) : list Row :=
  match records with
  | [] => []
  | header :: data =>
      dict_of_record header <$> List.filter (λ r, negb (is_blank r)) data
  end.

(** [open(csv_file, 'r')] and the reading of its records. *)
Definition open_read (csv_file : string) : M (list (list string)) :=
  w ← get_world;
  match files w !! csv_file with
  | None => raise FileNotFoundError
  | Some records => ret records
  end.

(** [open(csv_file, 'w', newline='')] *)
Definition open_write (csv_file : string) : M unit :=
  w ← get_world;
  set_files (<[csv_file := []]> (files w)).

Definition write_record (csv_file : string) (record : list string) : M unit :=
  w ← get_world;
  set_files (alter (λ records, (records ++ [record])%list) csv_file (files w)).

(** [writer.writeheader()] *)
Definition writeheader (csv_file : string) : M unit :=
  write_record csv_file fieldnames.

(** [rowdict.get(key, '')], as the cell the writer puts in the file. *)
Definition cell (row : Row) (key : string) : string :=
  match fields row !! key with
  | Some (Some value) => value
  | Some None => ""
  | None => ""
  end.

(** [rowdict.keys() - fieldnames] is empty. *)
Definition no_wrong_fields (row : Row) : bool :=
  bool_decide (dom (fields row) ⊆ list_to_set fieldnames) &&
  bool_decide (rest row = None).

(** [writer.writerow(row)], with [extrasaction='raise']. *)
Definition writerow (csv_file : string) (row : Row) : M unit :=
  if no_wrong_fields row
  then write_record csv_file (cell row <$> fieldnames)
  else raise ValueError.

(** [row[key]] *)
Definition getitem (row : Row) (key : string) : M (option string) :=
  match fields row !! key with
  | Some value => ret value
  | None => raise (KeyError key)
  end.

(** [row[key] = value] *)
Definition setitem (row : Row) (key value : string) : Row :=
  {| fields := <[key := Some value]> (fields row); rest := rest row |}.

(** *** [process_profiles], lines 167-215 *)

(** Lines 189-194. *)
Definition rotate_if_needed (row : Row) : M Row :=
  sc ← get_self;
  if 5 <=? consecutive_failures sc then
    logger WARNING FiveConsecutiveFailures ;;
    get_new_proxy ;;
    let row := setitem row "IP change" "rotation" in
    set_consecutive_failures 0 ;;
    ret row
  else ret row.

(** Lines 198-204. *)
Definition fill_row (row : Row) (name location : option string) : Row :=
  let row :=
    if PyStr.truthy_opt name then
      let name_parts := PyStr.split_space_1 (default "" name) in
      let row := setitem row "first_name" (nth 0 name_parts "") in
      setitem row "last_name"
              (if 1 <? length name_parts then nth 1 name_parts "" else "")
    else row in
  if PyStr.truthy_opt location
  then setitem row "geo" (default "" location)
  else row.

(** Lines 187-209, for the first row and its non-empty [prooflink];
    the pause of line 209 changes nothing in the state. *)
Definition process_row (csv_file : string) (row : Row) (profile_url : string)
  : M unit :=
  logger INFO (ProcessingProfile profile_url) ;;
  row ← rotate_if_needed row;
  ' (name, location) ← extract_profile_info profile_url;
  let row := fill_row row name location in
  writerow csv_file row.

(** [self.driver.quit()] of the [finally] clause. *)
Definition quit_driver : M unit :=
  sc ← get_self;
  match driver sc with
  | Some d => set_driver (Some (quit d))
  | None => ret tt
  end.

Definition process_profiles (csv_file : string) : M unit :=
  try_finally
    (try_except
       (records ← open_read csv_file;
        let rows := DictReader records in
        open_write csv_file ;;
        writeheader csv_file ;;
        match rows with
        | row :: _ =>
            profile_url ← getitem row "prooflink";
            if negb (PyStr.truthy_opt profile_url) then
              logger WARNING NoProfileUrl
            else
              process_row csv_file row (default "" profile_url)
        | [] => ret tt
        end)
       (λ e, logger ERROR ErrorProcessingProfiles))
    quit_driver.

End LinkedInScraper.

(** ** Vocabulary of the properties *)

(** The proxy a browser is launched with, for a given [current_proxy]. *)
Definition proxy_server_of (current : option string) : option string :=
  if PyStr.truthy_opt current then current else None.

(** A log that grew by records of [get_new_proxy] only. *)
Definition rotation_records : list (Level * LogMsg) → Prop :=
  Forall (λ r, r.2 ≠ FiveConsecutiveFailures).

(** The categories of the response classifier, and the classifier as
    the specification words it: first match wins. *)
Inductive Category :=
| Blocked
| WrongDomain
| ExtractionFailure
| Success.

Definition classify (env : Env) (final_url page_title page_content : string)
  : Category :=
  let page := {| title := page_title; current_url := final_url;
                 page_source := page_content |} in
  if is_error_page page then Blocked
  else if is_login_wall page then Blocked
  else if negb (on_linkedin page) then WrongDomain
  else if name_or_location_is_None env page then ExtractionFailure
  else Success.

Definition classify_page (env : Env) (page : Page) : Category :=
  classify env (current_url page) (title page) (page_source page).

(** The category a record of the log stands for. *)
Definition category_of_record (record : Level * LogMsg) : option Category :=
  match record with
  | (WARNING, ChromeErrorPage) => Some Blocked
  | (WARNING, HitLoginWall) => Some Blocked
  | (WARNING, NotOnLinkedIn) => Some WrongDomain
  | (WARNING, ExtractionReturnedNone) => Some ExtractionFailure
  | (INFO, SuccessfullyExtracted _ _) => Some Success
  | _ => None
  end.

(** The success classifications among the records of a log. *)
Definition is_success_record (record : Level * LogMsg) : bool :=
  match category_of_record record with
  | Some Success => true
  | _ => false
  end.

Definition successes (records : list (Level * LogMsg)) : nat :=
  length (List.filter is_success_record records).

(** The classifier with the domain test as the specification words it:
    "a final URL that is not on the expected (linkedin) domain yields
    wrong-domain".  The domain of a URL is its host, which stands
    between the scheme and the port, path, query or fragment; it is on
    the linkedin domain when it is linkedin.com or ends with
    .linkedin.com.  The other tests are those of the code. *)
Module Spec.

Fixpoint drop (n : nat) (s : string) : string :=
  match n, s with
  | S n, String _ rest => drop n rest
  | _, _ => s
  end.

(** What follows the first "://" of a URL. *)
Fixpoint after_scheme (url : string) : option string :=
  match url with
  | EmptyString => None
  | String _ rest =>
      if String.prefix "://" url then Some (drop 3 url)
      else after_scheme rest
  end.

Definition ends_host (c : ascii) : bool :=
  (Ascii.eqb c "/" || Ascii.eqb c "?" || Ascii.eqb c "#"
   || Ascii.eqb c ":")%char.

Fixpoint up_to_path (s : string) : string :=
  match s with
  | EmptyString => EmptyString
  | String c rest =>
      if ends_host c then EmptyString else String c (up_to_path rest)
  end.

Definition host (url : string) : string :=
  up_to_path (default url (after_scheme url)).

Fixpoint ends_with (suffix s : string) : bool :=
  String.eqb suffix s ||
  match s with
  | EmptyString => false
  | String _ rest => ends_with suffix rest
  end.

Definition on_expected_domain (url : string) : bool :=
  let h := PyStr.lower (host url) in
  String.eqb h "linkedin.com" || ends_with ".linkedin.com" h.

Definition classify (env : Env) (final_url page_title page_content : string)
  : Category :=
  let page := {| title := page_title; current_url := final_url;
                 page_source := page_content |} in
  if is_error_page page then Blocked
  else if is_login_wall page then Blocked
  else if negb (on_expected_domain final_url) then WrongDomain
  else if name_or_location_is_None env page then ExtractionFailure
  else Success.

End Spec.

(** One pass through the loop of [extract_profile_info] that goes back
    to its head: from [attempts] and a state to the next ones. *)
Inductive loop_step (env : Env) (profile_url : string)
  : nat * State → nat * State → Prop :=
| loop_step_continue attempts s attempts' s' :
    attempts < max_attempts →
    attempt env profile_url attempts s = (Returns (Continue attempts'), s') →
    loop_step env profile_url (attempts, s) (attempts', s').

(** The [while] loop of [extract_profile_info] and the two lines after
    it, as a relation between the loop head and the outcome. *)
Inductive while_runs (env : Env) (profile_url : string)
  : nat → State → Outcome (option string * option string) * State → Prop :=
| while_exit attempts s :
    ¬ attempts < max_attempts →
    while_runs env profile_url attempts s
      ((logger ERROR MaxAttemptsReached ;; ret (None, None)) s)
| while_return attempts s result s' :
    attempts < max_attempts →
    attempt env profile_url attempts s = (Returns (Return result), s') →
    while_runs env profile_url attempts s (Returns result, s')
| while_raise attempts s e s' :
    attempts < max_attempts →
    attempt env profile_url attempts s = (Raises e, s') →
    while_runs env profile_url attempts s (Raises e, s')
| while_continue attempts s attempts' s' outcome :
    attempts < max_attempts →
    attempt env profile_url attempts s = (Returns (Continue attempts'), s') →
    while_runs env profile_url attempts' s' outcome →
    while_runs env profile_url attempts s outcome.

(** The records of the rotation threshold (line 191) in a log. *)
Definition is_threshold_record (record : Level * LogMsg) : bool :=
  match record.2 with
  | FiveConsecutiveFailures => true
  | _ => false
  end.

Definition proactive_rotations (records : list (Level * LogMsg)) : nat :=
  length (List.filter is_threshold_record records).

(** The state in which [process_profiles] turns to the first row: the
    file has been opened for writing and holds the header. *)
Definition header_written (csv_file : string) (s : State) : State :=
  ((open_write csv_file ;; writeheader csv_file) s).2.

(** The state in which [process_row] calls [extract_profile_info]. *)
Definition target_start (env : Env) (row : Row) (profile_url : string)
  (s : State) : State :=
  ((logger INFO (ProcessingProfile profile_url) ;;
    rotate_if_needed env row) s).2.

(** What [extract_profile_info] returns where [process_row] calls it:
    [(None, None)] for a target that is given up. *)
Definition outcome_of_target (env : Env) (row : Row) (profile_url : string)
  : M (option string * option string) :=
  logger INFO (ProcessingProfile profile_url) ;;
  rotate_if_needed env row ;;
  extract_profile_info env profile_url.

(** [main], lines 217-223, for the value [key] of the environment
    variable [PROXYSCRAPE_API_KEY]. *)
Definition main (env : Env) (key : string) : M unit :=
  init env key ;;
  process_profiles env "ProfilesListExample.csv".

(** The state with [records] in the file [csv_file]. *)
Definition with_file (csv_file : string) (records : list (list string))
  (s : State) : State :=
  {| self := self s;
     world := {| proxyscrape_calls := proxyscrape_calls (world s);
                 httpbin_calls := httpbin_calls (world s);
                 chrome_launches := chrome_launches (world s);
                 page_loads := page_loads (world s);
                 log := log (world s);
                 files := <[csv_file := records]> (files (world s)) |} |}.

(** A browser that is not running any more, or no browser. *)
Definition browser_released (sc : Scraper) : Prop :=
  match driver sc with
  | Some d => drv_quit d = true
  | None => True
  end.

(** The first and the last character of a string. *)
Definition first_char (s : string) : option ascii :=
  match s with
  | EmptyString => None
  | String c _ => Some c
  end.

Fixpoint last_char (s : string) : option ascii :=
  match s with
  | EmptyString => None
  | String c EmptyString => Some c
  | String _ rest => last_char rest
  end.

(** ** Concrete runs *)

Module Scenario.

Definition csv_file : string := "ProfilesListExample.csv".

Definition jane_url : string := "https://www.linkedin.com/in/jane-doe".

Definition input_records : list (list string) :=
  [ fieldnames;
    [""; ""; ""; jane_url; ""];
    [""; ""; ""; "https://www.linkedin.com/in/john-roe"; ""] ].

Definition blank : State :=
  {| self := {| api_key := ""; consecutive_failures := 0;
                current_proxy := None; driver := None |};
     world := {| proxyscrape_calls := 0; httpbin_calls := 0;
                 chrome_launches := 0; page_loads := 0; log := [];
                 files := {[ csv_file := input_records ]} |} |}.

(** The scraper as [main] builds it. *)
Definition start (env : Env) : State := (init env "secret" blank).2.

Definition jane_page : Page :=
  {| title := "Jane Doe | LinkedIn";
     current_url := jane_url;
     page_source := "<h1 class=text-heading-xlarge> Jane Doe </h1>" |}.

Definition error_page : Page :=
  {| title := "Error - Page Not Found";
     current_url := jane_url;
     page_source := "<body>This site can't be reached</body>" |}.

Definition authwall_page : Page :=
  {| title := "Sign Up | LinkedIn";
     current_url := "https://www.linkedin.com/authwall?trk=x";
     page_source := "<body>Join now</body>" |}.

(** The parser finds the name and the location on Jane's page only. *)
Definition parse_name (source : string) : option string :=
  if PyStr.contains "text-heading-xlarge" source
  then Some " Jane Doe " else None.

Definition parse_location (source : string) : option string :=
  if PyStr.contains "text-heading-xlarge" source
  then Some "Remote" else None.

(** A browser that has been quit loads nothing. *)
Definition load (page : nat → Navigation) (n : nat) (d : Driver)
  (url : string) : Navigation :=
  if drv_quit d then NavError else page n.

(** Everything works: the provider hands out a proxy that answers the
    probe, and the profile page loads. *)
Definition friendly : Env :=
  {| proxyscrape := λ _, HttpResponse 200 "203.0.113.7:8080
";
     httpbin := λ _ _, HttpResponse 200 "{}";
     chrome := λ _, true;
     navigate := load (λ _, NavLoaded jane_page);
     find_name := parse_name;
     find_location := parse_location |}.

(** The provider hands out a proxy that does not answer the probe, and
    the site shows an error page. *)
Definition dead_proxy : Env :=
  {| proxyscrape := λ _, HttpResponse 200 "203.0.113.7:8080
";
     httpbin := λ _ _, HttpError;
     chrome := λ _, true;
     navigate := load (λ _, NavLoaded error_page);
     find_name := parse_name;
     find_location := parse_location |}.

(** The provider answers with status 503; the first load times out, the
    second shows the sign-up wall. *)
Definition provider_down : Env :=
  {| proxyscrape := λ _, HttpResponse 503 "Service Unavailable";
     httpbin := λ _ _, HttpError;
     chrome := λ _, true;
     navigate := load (λ n, match n with
                            | 0 => NavError
                            | _ => NavLoaded authwall_page
                            end);
     find_name := parse_name;
     find_location := parse_location |}.

(** Nothing loads. *)
Definition offline : Env :=
  {| proxyscrape := λ _, HttpError;
     httpbin := λ _ _, HttpError;
     chrome := λ _, true;
     navigate := λ _ _ _, NavError;
     find_name := parse_name;
     find_location := parse_location |}.

(** The scraper of [provider_down] after two calls of
    [process_profiles]: the first gives the target up after a time-out
    and the sign-up wall, and quits the browser; the second finds the
    browser gone at each of its five attempts. *)
Definition after_two_calls : State :=
  (process_profiles provider_down csv_file
     (process_profiles provider_down csv_file (start provider_down)).2).2.

Definition blank_row : Row :=
  dict_of_record fieldnames [""; ""; ""; jane_url; ""].

(** The page loads, with a heading that holds white space only. *)
Definition blank_heading : Env :=
  {| proxyscrape := λ _, HttpError;
     httpbin := λ _ _, HttpError;
     chrome := λ _, true;
     navigate := load (λ _, NavLoaded jane_page);
     find_name := λ _, Some "  ";
     find_location := λ _, Some "Remote" |}.

(** A file whose first data record has one cell more than the header. *)
Definition long_records : list (list string) :=
  [ fieldnames; [""; ""; ""; jane_url; ""; "note"] ].

(** The provider and the probe answer, but Chrome starts only once. *)
Definition one_browser : Env :=
  {| proxyscrape := λ _, HttpResponse 200 "203.0.113.7:8080";
     httpbin := λ _ _, HttpResponse 200 "{}";
     chrome := λ n, match n with 0 => true | _ => false end;
     navigate := load (λ _, NavLoaded error_page);
     find_name := parse_name;
     find_location := parse_location |}.

(** A page of another site, with [linkedin] in the path of its URL. *)
Definition off_domain_page : Page :=
  {| title := "Jane Doe";
     current_url := "https://evil.example/linkedin/jane";
     page_source := "<h1 class=text-heading-xlarge> Jane Doe </h1>" |}.

Definition off_domain : Env :=
  {| proxyscrape := λ _, HttpError;
     httpbin := λ _ _, HttpError;
     chrome := λ _, true;
     navigate := load (λ _, NavLoaded off_domain_page);
     find_name := parse_name;
     find_location := parse_location |}.

(** The provider hands out proxies that answer the probe, but no page
    loads. *)
Definition no_page : Env :=
  {| proxyscrape := λ _, HttpResponse 200 "203.0.113.7:8080
";
     httpbin := λ _ _, HttpResponse 200 "{}";
     chrome := λ _, true;
     navigate := λ _ _ _, NavError;
     find_name := parse_name;
     find_location := parse_location |}.

(** The scraper of [no_page] after one call of [process_profiles]: the
    five attempts of the target have failed. *)
Definition five_failures : State :=
  (process_profiles no_page csv_file (start no_page)).2.

End Scenario.

(** * Properties *)

(** ** Running a computation *)

Ltac unfold_M :=
  unfold increment_consecutive_failures, set_consecutive_failures,
    set_current_proxy, set_driver, logger, count_proxyscrape_call,
    count_httpbin_call, count_chrome_launch, count_page_load, set_files in *;
  unfold try_except, try_finally, get_self, get_world, put_self, put_world,
    raise, bind, ret in *.

Ltac split_cases := repeat (case_match; cbn in *; simplify_eq); cbn in *.

Ltac run_get_new_proxy :=
  unfold get_new_proxy, requests_get_proxyscrape, validate_proxy,
    requests_get_httpbin, setup_driver, webdriver_Chrome in *;
  unfold_M; cbn in *.

Section GetNewProxy.

Variable env : Env.

(** [get_new_proxy] catches everything it raises. *)
Lemma get_new_proxy_returns s :
  ∃ b, (get_new_proxy env s).1 = Returns b.
Proof.
  run_get_new_proxy.
  split_cases; eauto.
Qed.

(** What [get_new_proxy] leaves alone. *)
Lemma get_new_proxy_frame s :
  let s' := (get_new_proxy env s).2 in
  consecutive_failures (self s') = consecutive_failures (self s) ∧
  api_key (self s') = api_key (self s) ∧
  files (world s') = files (world s) ∧
  page_loads (world s') = page_loads (world s) ∧
  (is_Some (driver (self s)) → is_Some (driver (self s'))) ∧
  ∃ records, log (world s') = (log (world s) ++ records)%list ∧
             rotation_records records.
Proof.
  run_get_new_proxy.
  split_cases;
    repeat split; eauto;
    rewrite <- ?app_assoc; simpl;
    (eexists; split;
       [reflexivity
       | repeat first [apply Forall_nil_2
                      | apply Forall_cons_2; [cbn; discriminate |]]]).
Qed.

(** When [get_new_proxy] returns [True]: the provider answered with
    status 200, the probe through the candidate answered with status
    200, and a fresh browser runs with the candidate. *)
Lemma get_new_proxy_True s s' :
  get_new_proxy env s = (Returns true, s') →
  ∃ text body,
    proxyscrape env (proxyscrape_calls (world s)) = HttpResponse 200 text ∧
    httpbin env (httpbin_calls (world s)) (Some (PyStr.strip text))
      = HttpResponse 200 body ∧
    chrome env (chrome_launches (world s)) = true ∧
    current_proxy (self s') = Some (PyStr.strip text) ∧
    driver (self s') =
      Some {| drv_proxy := proxy_server_of (Some (PyStr.strip text));
              drv_quit := false |}.
Proof.
  run_get_new_proxy. unfold proxy_server_of.
  intros H.
  split_cases;
    repeat match goal with
           | H : (_ =? _)%Z = true |- _ => apply Z.eqb_eq in H; subst
           end;
    eexists _, _; repeat split; eauto;
    match goal with H : PyStr.truthy _ = _ |- _ => by rewrite H end.
Qed.

(** When [get_new_proxy] returns [False], the browser keeps the proxy it
    was launched with. *)
Lemma get_new_proxy_False s s' :
  get_new_proxy env s = (Returns false, s') →
  drv_proxy <$> driver (self s') = drv_proxy <$> driver (self s).
Proof.
  run_get_new_proxy.
  intros H.
  split_cases;
    repeat match goal with H : driver _ = _ |- _ => rewrite H end;
    reflexivity.
Qed.

End GetNewProxy.

(** ** C1: rotation and validation *)

(** C1 as stated fails: [get_new_proxy] stores the candidate in
    [current_proxy] before it validates it, and leaves it there when the
    validation fails and the call returns [False]. *)
Lemma current_proxy_overwritten_before_validation :
  ¬ (∀ env s s',
       get_new_proxy env s = (Returns false, s') →
       current_proxy (self s') = current_proxy (self s)).
Proof.
  intros H.
  specialize (H Scenario.dead_proxy (Scenario.start Scenario.dead_proxy)
                (get_new_proxy Scenario.dead_proxy
                   (Scenario.start Scenario.dead_proxy)).2).
  assert (Hrun : get_new_proxy Scenario.dead_proxy
                   (Scenario.start Scenario.dead_proxy) =
                 (Returns false,
                  (get_new_proxy Scenario.dead_proxy
                     (Scenario.start Scenario.dead_proxy)).2))
    by (vm_compute; reflexivity).
  specialize (H Hrun). vm_compute in H. discriminate H.
Qed.

(** C1, amended: the proxy of the browser ([self.driver]), through which
    pages are fetched, is replaced only after the candidate passed
    [validate_proxy]; whenever [get_new_proxy] returns [False] the
    browser's proxy is what it was before the call.  [current_proxy]
    changes only to a candidate the provider returned with status 200. *)
Theorem driver_proxy_replaced_only_after_validation env s b s' :
  get_new_proxy env s = (Returns b, s') →
  (b = false →
   drv_proxy <$> driver (self s') = drv_proxy <$> driver (self s)) ∧
  (drv_proxy <$> driver (self s') ≠ drv_proxy <$> driver (self s) →
   ∃ text body,
     proxyscrape env (proxyscrape_calls (world s)) = HttpResponse 200 text ∧
     httpbin env (httpbin_calls (world s)) (Some (PyStr.strip text))
       = HttpResponse 200 body ∧
     driver (self s') =
       Some {| drv_proxy := proxy_server_of (Some (PyStr.strip text));
               drv_quit := false |}) ∧
  (current_proxy (self s') ≠ current_proxy (self s) →
   ∃ text,
     proxyscrape env (proxyscrape_calls (world s)) = HttpResponse 200 text ∧
     current_proxy (self s') = Some (PyStr.strip text)).
Proof.
  intros Hrun. split; [| split].
  - intros ->. by apply (get_new_proxy_False env).
  - intros Hchanged. destruct b.
    + destruct (get_new_proxy_True env _ _ Hrun)
        as (text & body & Hp & Hv & _ & _ & Hd).
      by exists text, body.
    + by apply (get_new_proxy_False env) in Hrun.
  - intros Hchanged.
    run_get_new_proxy.
    split_cases;
      repeat match goal with
             | H : (_ =? _)%Z = true |- _ => apply Z.eqb_eq in H; subst
             end;
      solve [ by eexists | congruence ].
Qed.

Lemma driver_proxy_replaced_only_after_validation_witness :
  drv_proxy <$> driver (self (get_new_proxy Scenario.dead_proxy
                                (Scenario.start Scenario.dead_proxy)).2)
  = drv_proxy <$> driver (self (Scenario.start Scenario.dead_proxy)).
Proof.
  refine (proj1 (driver_proxy_replaced_only_after_validation
                   Scenario.dead_proxy
                   (Scenario.start Scenario.dead_proxy) false _ _)
                eq_refl).
  vm_compute. reflexivity.
Defined.

(** ** One attempt *)

Ltac run_attempt :=
  unfold attempt, driver_get in *; unfold_M; cbn in *.

(** Names the outcome of the call to [get_new_proxy] in the goal, with
    what is known of it. *)
Ltac call_get_new_proxy env :=
  match goal with
  | |- context [get_new_proxy env ?s1] =>
      let Hret := fresh "Hret" in
      let Hframe := fresh "Hframe" in
      let Hrun := fresh "Hrun" in
      destruct (get_new_proxy_returns env s1) as [? Hret];
      pose proof (get_new_proxy_frame env s1) as Hframe;
      destruct (get_new_proxy env s1) as [[[|]|?] ?] eqn:Hrun;
      cbn in Hret, Hframe; simplify_eq; cbn
  end.

(** The four checks of the loaded page, in their order. *)
Ltac inspect page :=
  destruct (is_error_page page) eqn:Herror; cbn;
  [| destruct (is_login_wall page) eqn:Hlogin; cbn;
     [| destruct (on_linkedin page) eqn:Hlinkedin; cbn;
        [destruct (name_or_location_is_None _ page) eqn:Hmissing; cbn |]]].

(** The log grew, and not by the record of the rotation threshold. *)
Ltac log_grows :=
  try match goal with H : log _ = _ |- _ => rewrite H end;
  rewrite <- ?app_assoc; cbn;
  eexists; split;
    [ reflexivity
    | repeat first [ assumption
                   | apply Forall_nil_2
                   | apply Forall_cons_2; [cbn; discriminate |] ] ].

Section Attempt.

Variable env : Env.
Variable profile_url : string.

Lemma get_new_proxy_requests s :
  proxyscrape_calls (world (get_new_proxy env s).2)
  = S (proxyscrape_calls (world s)).
Proof. run_get_new_proxy. split_cases; reflexivity. Qed.

(** An attempt returns, and when it goes back to the head of the loop
    it has counted itself. *)
Lemma attempt_returns attempts s :
  ∃ flow, (attempt env profile_url attempts s).1 = Returns flow ∧
          ∀ attempts', flow = Continue attempts' → attempts' = attempts + 1.
Proof.
  run_attempt.
  destruct (driver (self s)); cbn;
    [destruct (navigate env _ _ _) as [|page]; cbn; [| inspect page] |];
    try call_get_new_proxy env;
    (eexists; split; [reflexivity | intros; simplify_eq; done]).
Qed.

(** What an attempt leaves alone. *)
Lemma attempt_frame attempts s :
  let s' := (attempt env profile_url attempts s).2 in
  files (world s') = files (world s) ∧
  api_key (self s') = api_key (self s) ∧
  (is_Some (driver (self s)) → is_Some (driver (self s'))) ∧
  page_loads (world s') ≤ S (page_loads (world s)) ∧
  ∃ records, log (world s') = (log (world s) ++ records)%list ∧
             rotation_records records.
Proof.
  destruct s as [[key cf cp drv] [pc hc cl pl lg fs]].
  run_attempt.
  destruct drv as [d|]; cbn;
    [destruct (navigate env _ _ _) as [|page]; cbn; [| inspect page] |];
    try call_get_new_proxy env;
    try destruct Hframe
      as (Hcf & Hkey & Hfiles & Hloads & Hdrv & records & Hlog & Hrec);
    cbn in *;
    repeat split; first [congruence | lia | by eauto | log_grows].
Qed.

End Attempt.

Section Outcome.

Variable env : Env.
Variable profile_url : string.

(** The classifier on a loaded page reads the checks of the loop. *)
Lemma classify_page_checks page :
  classify_page env page =
    if is_error_page page then Blocked
    else if is_login_wall page then Blocked
    else if negb (on_linkedin page) then WrongDomain
    else if name_or_location_is_None env page then ExtractionFailure
    else Success.
Proof. by destruct page. Qed.

Lemma not_None_is_Some page :
  name_or_location_is_None env page = false →
  is_Some (extract_name env page) ∧ is_Some (extract_location env page).
Proof.
  unfold name_or_location_is_None.
  destruct (extract_name env page), (extract_location env page);
    intros; simplify_eq; eauto.
Qed.

(** An attempt either meets a page that passes every check, returns
    what it extracted and sets [consecutive_failures] to 0, or it adds
    1 to [consecutive_failures] and goes on or gives up. *)
Lemma attempt_outcome attempts s :
  let r := attempt env profile_url attempts s in
  (∃ d page,
     driver (self s) = Some d ∧
     navigate env (page_loads (world s)) d profile_url = NavLoaded page ∧
     classify_page env page = Success ∧
     is_Some (extract_name env page) ∧
     is_Some (extract_location env page) ∧
     r.1 = Returns (Return (extract_name env page,
                            extract_location env page)) ∧
     consecutive_failures (self r.2) = 0)
  ∨
  ((∀ d page,
      driver (self s) = Some d →
      navigate env (page_loads (world s)) d profile_url = NavLoaded page →
      classify_page env page ≠ Success) ∧
   consecutive_failures (self r.2) = consecutive_failures (self s) + 1 ∧
   (r.1 = Returns (Continue (attempts + 1)) ∨
    r.1 = Returns (Return (None, None)))).
Proof.
  destruct s as [[key cf cp drv] [pc hc cl pl lg fs]].
  run_attempt.
  destruct drv as [d|]; cbn;
    [destruct (navigate env _ _ _) as [|page] eqn:Hnav; cbn;
       [| inspect page] |];
    try call_get_new_proxy env;
    try destruct Hframe as (Hcf & _);
    cbn in *.
  all: try (right; split;
            [ intros d' page' ? Hnav'; simplify_eq; try congruence;
              rewrite Hnav in Hnav'; simplify_eq;
              rewrite classify_page_checks;
              repeat match goal with
                     | H : _ page' = _ |- _ => rewrite H; clear H
                     | H : _ _ page' = _ |- _ => rewrite H; clear H
                     end; done
            | split; [congruence | by eauto] ]).
  left. exists d, page.
  destruct (not_None_is_Some page Hmissing).
  rewrite classify_page_checks, Herror, Hlogin, Hlinkedin, Hmissing.
  repeat split; auto.
Qed.

Lemma while_attempts_unfold fuel attempts :
  while_attempts env fuel profile_url attempts =
    if attempts <? max_attempts then
      match fuel with
      | 0 => ret (None, None)
      | S fuel' =>
          flow ← attempt env profile_url attempts;
          match flow with
          | Continue attempts' =>
              while_attempts env fuel' profile_url attempts'
          | Return result => ret result
          end
      end
    else
      logger ERROR MaxAttemptsReached ;;
      ret (None, None).
Proof. by destruct fuel. Qed.

(** Unrolling the loop as often as attempts remain runs it to its end. *)
Lemma while_attempts_runs fuel attempts s :
  max_attempts - attempts ≤ fuel →
  while_runs env profile_url attempts s
    (while_attempts env fuel profile_url attempts s).
Proof.
  revert attempts s. induction fuel as [|fuel IH]; intros attempts s Hfuel;
    rewrite while_attempts_unfold;
    destruct (attempts <? max_attempts) eqn:Hlt;
    try (apply while_exit; apply Nat.ltb_ge in Hlt; lia);
    apply Nat.ltb_lt in Hlt; [lia |].
  destruct (attempt_returns env profile_url attempts s)
    as (flow & Hflow & Hnext).
  unfold bind at 1.
  destruct (attempt env profile_url attempts s) as [o s'] eqn:Hrun.
  cbn in Hflow. subst o. destruct flow as [attempts'|result].
  - eapply while_continue; [done | exact Hrun |].
    apply IH. rewrite (Hnext attempts' eq_refl). lia.
  - by eapply while_return.
Qed.

Lemma extract_profile_info_runs s :
  while_runs env profile_url 0 s (extract_profile_info env profile_url s).
Proof. apply while_attempts_runs. lia. Qed.

(** The loop, from any of its heads: it returns, with both values or
    with none, and leaves the files alone. *)
Lemma while_runs_frame attempts s outcome :
  while_runs env profile_url attempts s outcome →
  (∃ result, outcome.1 = Returns result ∧
     (result = (None, None) ∨
      ∃ name location, result = (Some name, Some location))) ∧
  files (world outcome.2) = files (world s) ∧
  (is_Some (driver (self s)) → is_Some (driver (self outcome.2))) ∧
  ∃ records, log (world outcome.2) = (log (world s) ++ records)%list ∧
             rotation_records records.
Proof.
  induction 1 as [a s Hge | a s result s' Hlt Hrun | a s e s' Hlt Hrun
                 | a s a' s' outcome Hlt Hrun Hrest IH].
  - unfold_M. cbn. repeat split; eauto. log_grows.
  - pose proof (attempt_frame env profile_url a s) as Hframe.
    pose proof (attempt_outcome a s) as Hout.
    rewrite Hrun in Hframe, Hout. cbn in Hframe, Hout.
    destruct Hframe as (Hfiles & _ & Hdrv & _ & Hlog).
    repeat split; auto.
    destruct Hout as [(d & page & _ & _ & _ & [n Hn] & [l Hl] & Hres & _)
                     |(_ & _ & [Hres|Hres])]; simplify_eq.
    + exists (extract_name env page, extract_location env page).
      split; [done | right]. rewrite Hn, Hl. eauto.
    + eauto.
  - destruct (attempt_returns env profile_url a s) as (flow & Hflow & _).
    rewrite Hrun in Hflow. discriminate Hflow.
  - pose proof (attempt_frame env profile_url a s) as Hframe.
    rewrite Hrun in Hframe. cbn in Hframe.
    destruct Hframe as (Hfiles & _ & Hdrv & _ & records & Hlog & Hrec).
    destruct IH as (Hres & Hfiles' & Hdrv' & records' & Hlog' & Hrec').
    repeat split; [done | congruence | auto |].
    exists (records ++ records')%list. split.
    + by rewrite Hlog', Hlog, app_assoc.
    + by apply Forall_app_2.
Qed.

End Outcome.

(** ** C2: the attempt counter *)

Lemma loop_step_counts env profile_url x y :
  loop_step env profile_url x y → x.1 < max_attempts ∧ y.1 = x.1 + 1.
Proof.
  destruct 1 as [a s a' s' Hlt Hrun]. cbn. split; [done |].
  destruct (attempt_returns env profile_url a s) as (flow & Hflow & Hnext).
  rewrite Hrun in Hflow. cbn in Hflow. simplify_eq. by apply Hnext.
Qed.

Lemma loop_steps_bounded env profile_url x y :
  rtc (loop_step env profile_url) x y →
  x.1 ≤ max_attempts → x.1 ≤ y.1 ∧ y.1 ≤ max_attempts.
Proof.
  induction 1 as [x | x y z Hstep Hrest IH]; intros Hx; [lia |].
  apply loop_step_counts in Hstep. lia.
Qed.

(** C2: at every head of the loop of [extract_profile_info] that a run
    from [attempts = 0] reaches, whatever the failures were, [attempts]
    is at most [max_attempts] = 5; from there the loop comes to an end
    and returns, and at [attempts = 5] it returns [(None, None)]. *)
Theorem attempts_never_exceed_max_attempts env profile_url s attempts s' :
  rtc (loop_step env profile_url) (0, s) (attempts, s') →
  attempts ≤ max_attempts ∧
  ∃ result s'',
    while_runs env profile_url attempts s' (Returns result, s'') ∧
    (attempts = max_attempts → result = (None, None)).
Proof.
  intros Hreach.
  apply loop_steps_bounded in Hreach as [_ Hmax]; [| cbn; lia].
  cbn in Hmax. split; [done |].
  pose proof (while_attempts_runs env profile_url
                (max_attempts - attempts) attempts s' (le_n _)) as Hruns.
  destruct (while_runs_frame env profile_url _ _ _ Hruns)
    as ((result & Hres & _) & _).
  destruct (while_attempts env _ profile_url attempts s') as [o s''] eqn:Hw.
  cbn in Hres. subst o. exists result, s''. split; [done |].
  intros ->. rewrite while_attempts_unfold in Hw.
  unfold_M. cbn in Hw. by simplify_eq.
Qed.

Lemma attempts_never_exceed_max_attempts_witness :
  1 ≤ max_attempts ∧
  ∃ result s'',
    while_runs Scenario.offline Scenario.jane_url 1
      (attempt Scenario.offline Scenario.jane_url 0
         (Scenario.start Scenario.offline)).2
      (Returns result, s'') ∧
    (1 = max_attempts → result = (None, None)).
Proof.
  apply (attempts_never_exceed_max_attempts Scenario.offline
           Scenario.jane_url (Scenario.start Scenario.offline)).
  apply rtc_once. apply loop_step_continue; [unfold max_attempts; lia |].
  vm_compute. reflexivity.
Defined.

(** ** C3: [consecutive_failures] *)

Lemma loop_steps_count_failures env profile_url x y :
  rtc (loop_step env profile_url) x y →
  consecutive_failures (self y.2)
  = consecutive_failures (self x.2) + (y.1 - x.1) ∧ x.1 ≤ y.1.
Proof.
  induction 1 as [x | x y z Hstep Hrest IH]; [lia |].
  pose proof (loop_step_counts _ _ _ _ Hstep) as [_ Hnext].
  destruct Hstep as [a s a' s' Hlt Hrun].
  pose proof (attempt_outcome env profile_url a s) as Hout.
  rewrite Hrun in Hout. cbn in *.
  destruct Hout as [(d & page & _ & _ & _ & _ & _ & Hres & _) | (_ & Hcf & _)];
    [discriminate Hres |].
  lia.
Qed.

(** C3 as stated fails: the counter is also reset where nothing was
    classified a success.  After two calls of [process_profiles] with
    the provider down the counter is 7; the third call resets it at
    line 194, before its first attempt, and then fails five times: no
    success is logged, and the counter has gone down from 7 to 5. *)
Lemma consecutive_failures_reset_without_success :
  ¬ (∀ env csv_file s,
       let r := process_profiles env csv_file s in
       successes (log (world r.2)) = successes (log (world s)) →
       consecutive_failures (self s) ≤ consecutive_failures (self r.2)).
Proof.
  intros H.
  specialize (H Scenario.provider_down Scenario.csv_file
                Scenario.after_two_calls).
  cbv zeta in H.
  assert (Hbefore : consecutive_failures (self Scenario.after_two_calls) = 7)
    by (vm_compute; reflexivity).
  assert (Hafter : consecutive_failures
                     (self (process_profiles Scenario.provider_down
                              Scenario.csv_file Scenario.after_two_calls).2)
                   = 5)
    by (vm_compute; reflexivity).
  rewrite Hbefore, Hafter in H.
  assert (Hle : 7 ≤ 5) by (apply H; vm_compute; reflexivity).
  lia.
Qed.

(** Within one call of [extract_profile_info]: every attempt either
    ends on a success classification and sets [consecutive_failures]
    to 0, or ends on a failure (classified, or an exception) and adds
    exactly 1 to it; so along the attempts of a target that go back to
    the head of the loop the counter grows by 1 each time. *)
Lemma counter_within_target env profile_url :
  (∀ attempts s,
     let s' := (attempt env profile_url attempts s).2 in
     ((∃ d page,
         driver (self s) = Some d ∧
         navigate env (page_loads (world s)) d profile_url = NavLoaded page ∧
         classify_page env page = Success) ∧
      consecutive_failures (self s') = 0)
     ∨
     ((∀ d page,
         driver (self s) = Some d →
         navigate env (page_loads (world s)) d profile_url = NavLoaded page →
         classify_page env page ≠ Success) ∧
      consecutive_failures (self s') = consecutive_failures (self s) + 1)) ∧
  (∀ attempts s attempts' s',
     rtc (loop_step env profile_url) (attempts, s) (attempts', s') →
     attempts ≤ attempts' ∧
     consecutive_failures (self s')
     = consecutive_failures (self s) + (attempts' - attempts)).
Proof.
  split.
  - intros attempts s.
    destruct (attempt_outcome env profile_url attempts s)
      as [(d & page & Hd & Hnav & Hc & _ & _ & _ & Hcf) | (Hno & Hcf & _)].
    + left. eauto 10.
    + right. eauto.
  - intros attempts s attempts' s' Hreach.
    apply loop_steps_count_failures in Hreach. cbn in Hreach. lia.
Qed.

(** ** Strings: stripping, occurrences, the first space *)

Section Strings.

Lemma lstrip_first_char s c :
  first_char (PyStr.lstrip s) = Some c → PyStr.is_space c = false.
Proof.
  induction s as [|a s IH]; cbn; [done |].
  destruct (PyStr.is_space a) eqn:Ha; [done |].
  cbn. by intros [= <-].
Qed.

Lemma rstrip_keeps_first_char s c :
  first_char s = Some c → PyStr.is_space c = false →
  first_char (PyStr.rstrip s) = Some c.
Proof.
  destruct s as [|a s]; cbn; [done |].
  intros [= ->] Hc. destruct (PyStr.rstrip s); [by rewrite Hc | done].
Qed.

Lemma rstrip_first_char s c :
  first_char (PyStr.rstrip s) = Some c → first_char s = Some c.
Proof.
  destruct s as [|a s]; cbn; [done |].
  destruct (PyStr.rstrip s); [by destruct (PyStr.is_space a) | done].
Qed.

Lemma rstrip_last_char s c :
  last_char (PyStr.rstrip s) = Some c → PyStr.is_space c = false.
Proof.
  induction s as [|a s IH]; cbn; [done |].
  destruct (PyStr.rstrip s) as [|b t] eqn:Ht.
  - destruct (PyStr.is_space a) eqn:Ha; cbn; [done |]. by intros [= <-].
  - cbn. cbn in IH. exact IH.
Qed.

(** What [strip] returns neither starts nor ends with white space. *)
Lemma strip_outer_chars s c :
  first_char (PyStr.strip s) = Some c ∨ last_char (PyStr.strip s) = Some c →
  PyStr.is_space c = false.
Proof.
  unfold PyStr.strip. intros [Hfirst | Hlast].
  - apply rstrip_first_char in Hfirst. by apply lstrip_first_char in Hfirst.
  - by apply rstrip_last_char in Hlast.
Qed.

Lemma append_nil s : "" ++ s = s.
Proof. reflexivity. Qed.

Lemma append_cons a s t : String a s ++ t = String a (s ++ t).
Proof. reflexivity. Qed.

Lemma prefix_cons a needle b hay :
  String.prefix (String a needle) (String b hay)
  = if ascii_dec a b then String.prefix needle hay else false.
Proof. reflexivity. Qed.

Lemma prefix_app needle hay :
  String.prefix needle hay = true ↔ ∃ post, hay = needle ++ post.
Proof.
  revert hay. induction needle as [|a needle IH]; intros hay.
  - split; [intros _; exists hay; reflexivity | intros _; by destruct hay].
  - destruct hay as [|b hay].
    { split; [intros H; discriminate H |].
      intros [post Hpost]. by rewrite append_cons in Hpost. }
    rewrite prefix_cons.
    destruct (ascii_dec a b) as [-> | Hne].
    + rewrite IH. split; intros [post Hpost]; exists post.
      * by rewrite append_cons, Hpost.
      * rewrite append_cons in Hpost. congruence.
    + split; [done |]. intros [post Hpost].
      rewrite append_cons in Hpost. congruence.
Qed.

(** [needle in hay] holds exactly when [needle] occurs in [hay]. *)
Lemma contains_occurs needle hay :
  PyStr.contains needle hay = true ↔ ∃ pre post, hay = pre ++ needle ++ post.
Proof.
  induction hay as [|b hay IH]; cbn [PyStr.contains].
  - rewrite orb_false_r, prefix_app. split.
    + intros [post ->]. exists "", post. reflexivity.
    + intros (pre & post & Heq). destruct pre as [|a pre].
      * exists post. by rewrite append_nil in Heq.
      * by rewrite append_cons in Heq.
  - rewrite orb_true_iff, prefix_app, IH. split.
    + intros [[post ->] | (pre & post & ->)].
      * exists "", post. reflexivity.
      * exists (String b pre), post. reflexivity.
    + intros (pre & post & Heq). destruct pre as [|a pre].
      * left. exists post. by rewrite append_nil in Heq.
      * right. rewrite append_cons in Heq. injection Heq as -> ->.
        by exists pre, post.
Qed.

Lemma prefix_space c rest :
  Ascii.eqb c " " = false → String.prefix " " (String c rest) = false.
Proof.
  intros Hc. rewrite prefix_cons.
  destruct (ascii_dec " " c) as [<- | _]; [| reflexivity].
  by rewrite Ascii.eqb_refl in Hc.
Qed.

Lemma cut_at_space_Some s a b :
  PyStr.cut_at_space s = Some (a, b) →
  s = a ++ " " ++ b ∧ PyStr.contains " " a = false.
Proof.
  revert a b. induction s as [|c s IH]; intros a b; cbn; [done |].
  destruct (Ascii.eqb c " ") eqn:Hc.
  - apply Ascii.eqb_eq in Hc as ->. intros [= <- <-].
    split; reflexivity.
  - destruct (PyStr.cut_at_space s) as [[a' b']|]; [| done].
    intros [= <- <-]. destruct (IH a' b' eq_refl) as [-> Hno].
    split; [by rewrite append_cons |].
    cbn [PyStr.contains]. by rewrite Hno, prefix_space.
Qed.

Lemma cut_at_space_None s :
  PyStr.cut_at_space s = None → PyStr.contains " " s = false.
Proof.
  induction s as [|c s IH]; cbn [PyStr.cut_at_space]; [done |].
  destruct (Ascii.eqb c " ") eqn:Hc; [done |].
  destruct (PyStr.cut_at_space s) as [[a' b']|]; [done |].
  intros _. cbn [PyStr.contains]. by rewrite IH, prefix_space.
Qed.

End Strings.

(** ** C4: the classification of a loaded page *)

(** C4 as stated fails: line 129 asks whether [linkedin] occurs
    anywhere in the final URL, not whether the URL lies on the linkedin
    domain.  The page at https://evil.example/linkedin/jane is on the
    host evil.example, so the classifier of the specification gives
    wrong-domain; the attempt logs a success and returns the fields. *)
Lemma off_domain_url_is_success :
  ¬ (∀ env profile_url attempts s d page,
       driver (self s) = Some d →
       navigate env (page_loads (world s)) d profile_url = NavLoaded page →
       ∃ record records,
         log (world (attempt env profile_url attempts s).2)
         = (log (world s) ++
            [(INFO, AttemptingToExtract profile_url);
             (INFO, PageLoadedPausing); record] ++ records)%list ∧
         category_of_record record
         = Some (Spec.classify env (current_url page) (title page)
                   (page_source page))).
Proof.
  intros H.
  destruct (H Scenario.off_domain Scenario.jane_url 0
              (Scenario.start Scenario.off_domain)
              {| drv_proxy := None; drv_quit := false |}
              Scenario.off_domain_page)
    as (record & records & Hlog & Hcat);
    [vm_compute; reflexivity | vm_compute; reflexivity |].
  assert (Hspec : Spec.classify Scenario.off_domain
                    (current_url Scenario.off_domain_page)
                    (title Scenario.off_domain_page)
                    (page_source Scenario.off_domain_page) = WrongDomain)
    by (vm_compute; reflexivity).
  rewrite Hspec in Hcat.
  assert (Hrun : log (world (attempt Scenario.off_domain Scenario.jane_url 0
                               (Scenario.start Scenario.off_domain)).2)
                 = (log (world (Scenario.start Scenario.off_domain)) ++
                    [(INFO, AttemptingToExtract Scenario.jane_url);
                     (INFO, PageLoadedPausing);
                     (INFO, SuccessfullyExtracted "Jane Doe" "Remote")])%list)
    by (vm_compute; reflexivity).
  rewrite Hrun in Hlog. apply app_inv_head in Hlog.
  injection Hlog as <- _. discriminate Hcat.
Qed.

(** The classification of a page, with the tests of lines 111, 120, 129
    and 147 written out. *)
Lemma classify_page_markers env page :
  classify_page env page =
    if PyStr.contains "error" (PyStr.lower (title page))
       || PyStr.contains "not found" (PyStr.lower (page_source page))
    then Blocked
    else if PyStr.contains "login" (current_url page)
            || PyStr.contains "authwall" (current_url page)
    then Blocked
    else if negb (PyStr.contains "linkedin" (current_url page))
    then WrongDomain
    else match PyStr.strip <$> find_name env (page_source page),
               PyStr.strip <$> find_location env (page_source page) with
         | Some _, Some _ => Success
         | _, _ => ExtractionFailure
         end.
Proof.
  rewrite classify_page_checks.
  unfold is_error_page, is_login_wall, on_linkedin, name_or_location_is_None,
    extract_name, extract_location.
  destruct (_ || _); [done |]. destruct (_ || _); [done |].
  destruct (negb _); [done |].
  by destruct (find_name env (page_source page)),
       (find_location env (page_source page)).
Qed.

(** C4, amended: the classifier is a function of the final URL, the
    title and the content of the page, and the first matching rule
    wins: "error" in the lower-cased title or "not found" in the
    lower-cased content give [Blocked] whatever else holds (missing
    fields included); then "login" or "authwall" in the final URL give
    [Blocked]; then a final URL in which "linkedin" occurs nowhere
    gives [WrongDomain]; then a missing name or location gives
    [ExtractionFailure]; what is left is [Success].  After a page has
    loaded, the record the attempt logs next stands for that category;
    on [Success] the attempt returns the fields and resets the
    counter, otherwise it counts one failure. *)
Theorem classification_by_markers env profile_url attempts s d page :
  driver (self s) = Some d →
  navigate env (page_loads (world s)) d profile_url = NavLoaded page →
  let url := current_url page in
  let name := PyStr.strip <$> find_name env (page_source page) in
  let location := PyStr.strip <$> find_location env (page_source page) in
  let category :=
    if PyStr.contains "error" (PyStr.lower (title page))
       || PyStr.contains "not found" (PyStr.lower (page_source page))
    then Blocked
    else if PyStr.contains "login" url || PyStr.contains "authwall" url
    then Blocked
    else if negb (PyStr.contains "linkedin" url) then WrongDomain
    else match name, location with
         | Some _, Some _ => Success
         | _, _ => ExtractionFailure
         end in
  let r := attempt env profile_url attempts s in
  (∃ record records,
     log (world r.2)
     = (log (world s) ++
        [(INFO, AttemptingToExtract profile_url); (INFO, PageLoadedPausing);
         record] ++ records)%list ∧
     category_of_record record = Some category) ∧
  (category = Success →
   r.1 = Returns (Return (name, location)) ∧
   consecutive_failures (self r.2) = 0) ∧
  (category ≠ Success →
   (r.1 = Returns (Continue (attempts + 1)) ∨
    r.1 = Returns (Return (None, None))) ∧
   consecutive_failures (self r.2) = consecutive_failures (self s) + 1) ∧
  (PyStr.contains "linkedin" url = true ↔
   ∃ before after, url = before ++ "linkedin" ++ after).
Proof.
  intros Hd Hnav. cbv zeta. rewrite <- classify_page_markers.
  split; [| split; [| split; [| apply contains_occurs]]].
  - rewrite classify_page_checks.
    destruct s as [[key cf cp drv] [pc hc cl pl lg fs]].
    cbn in Hd, Hnav. subst drv.
    run_attempt. rewrite Hnav. cbn.
    inspect page; try call_get_new_proxy env;
      try destruct Hframe as (_ & _ & _ & _ & _ & records & Hlog & _);
      cbn in *;
      try (eexists _, records; rewrite Hlog, <- !app_assoc; cbn;
           split; reflexivity).
    eexists _, []. rewrite <- !app_assoc. cbn.
    split; reflexivity.
  - intros Hsuccess.
    destruct (attempt_outcome env profile_url attempts s)
      as [(d' & page' & Hd' & Hnav' & _ & _ & _ & Hres & Hcf)
         | (Hno & _ & _)].
    + rewrite Hd in Hd'. simplify_eq. rewrite Hnav in Hnav'. by simplify_eq.
    + by destruct (Hno d page Hd Hnav).
  - intros Hfailure.
    destruct (attempt_outcome env profile_url attempts s)
      as [(d' & page' & Hd' & Hnav' & Hc & _) | (_ & Hcf & Hflow)].
    + rewrite Hd in Hd'. simplify_eq. rewrite Hnav in Hnav'. by simplify_eq.
    + done.
Qed.

Lemma classification_by_markers_witness :
  let r := attempt Scenario.off_domain Scenario.jane_url 0
             (Scenario.start Scenario.off_domain) in
  r.1 = Returns (Return (Some "Jane Doe", Some "Remote")) ∧
  consecutive_failures (self r.2) = 0.
Proof.
  cbv zeta.
  refine (proj1 (proj2 (classification_by_markers Scenario.off_domain
                          Scenario.jane_url 0
                          (Scenario.start Scenario.off_domain)
                          {| drv_proxy := None; drv_quit := false |}
                          Scenario.off_domain_page _ _)) _);
    vm_compute; reflexivity.
Defined.

(** ** C6: rotation after a classified failure *)



(** ** C8, first part: an exception during an attempt *)

Section GenericError.

Variable env : Env.
Variable profile_url : string.

(** An attempt whose page load raises: logged, counted, no rotation. *)
Lemma attempt_raises attempts s :
  (∀ d, driver (self s) = Some d →
        navigate env (page_loads (world s)) d profile_url = NavError) →
  let r := attempt env profile_url attempts s in
  r.1 = Returns (Continue (attempts + 1)) ∧
  consecutive_failures (self r.2) = consecutive_failures (self s) + 1 ∧
  log (world r.2)
  = (log (world s) ++
     [(INFO, AttemptingToExtract profile_url); (ERROR, ErrorExtracting)])%list ∧
  driver (self r.2) = driver (self s) ∧
  current_proxy (self r.2) = current_proxy (self s) ∧
  proxyscrape_calls (world r.2) = proxyscrape_calls (world s) ∧
  page_loads (world r.2)
  = (if bool_decide (is_Some (driver (self s)))
     then S (page_loads (world s)) else page_loads (world s)).
Proof.
  destruct s as [[key cf cp drv] [pc hc cl pl lg fs]]. cbn.
  intros Hnav. run_attempt.
  destruct drv as [d|]; cbn.
  - rewrite (Hnav d eq_refl). cbn. by rewrite <- !app_assoc.
  - by rewrite <- !app_assoc.
Qed.

(** Page loads that keep raising are retried until [max_attempts]. *)
Lemma while_attempts_all_raise fuel attempts s d :
  max_attempts - attempts ≤ fuel →
  attempts ≤ max_attempts →
  driver (self s) = Some d →
  (∀ k, k < max_attempts - attempts →
        navigate env (page_loads (world s) + k) d profile_url = NavError) →
  let r := while_attempts env fuel profile_url attempts s in
  r.1 = Returns (None, None) ∧
  consecutive_failures (self r.2)
  = consecutive_failures (self s) + (max_attempts - attempts) ∧
  page_loads (world r.2) = page_loads (world s) + (max_attempts - attempts) ∧
  driver (self r.2) = Some d.
Proof.
  revert attempts s.
  induction fuel as [|fuel IH]; intros attempts s Hfuel Hle Hd Hnav;
    rewrite while_attempts_unfold;
    destruct (attempts <? max_attempts) eqn:Hlt;
    try (apply Nat.ltb_ge in Hlt;
         replace (max_attempts - attempts) with 0 by lia;
         unfold_M; cbn; rewrite !Nat.add_0_r; done);
    apply Nat.ltb_lt in Hlt; [lia |].
  assert (Hfirst : ∀ d', driver (self s) = Some d' →
            navigate env (page_loads (world s)) d' profile_url = NavError).
  { intros d' Hd'. rewrite Hd in Hd'. simplify_eq.
    rewrite <- (Nat.add_0_r (page_loads (world s))). apply Hnav. lia. }
  destruct (attempt_raises attempts s Hfirst)
    as (Hflow & Hcf & _ & Hdrv & _ & _ & Hloads).
  unfold bind at 1.
  destruct (attempt env profile_url attempts s) as [o s1].
  cbn in Hflow, Hcf, Hdrv, Hloads. subst o. rewrite Hd in Hloads, Hdrv.
  cbn in Hloads.
  destruct (IH (attempts + 1) s1) as (Hres & Hcf' & Hloads' & Hdrv');
    [lia | lia | done | |].
  { intros k Hk. rewrite Hloads.
    replace (S (page_loads (world s)) + k)
      with (page_loads (world s) + S k) by lia.
    apply Hnav. lia. }
  repeat split; [done | lia | lia | done].
Qed.

End GenericError.

(** ** The CSV rows *)

Lemma cell_setitem row key value key' :
  cell (setitem row key value) key'
  = if decide (key = key') then value else cell row key'.
Proof.
  unfold cell, setitem. cbn. case_decide.
  - subst. by rewrite lookup_insert_eq.
  - by rewrite lookup_insert_ne.
Qed.

Lemma no_wrong_fields_setitem row key value :
  key ∈ fieldnames →
  no_wrong_fields row = true →
  no_wrong_fields (setitem row key value) = true.
Proof.
  unfold no_wrong_fields, setitem. cbn [fields rest]. intros Hkey Hrow.
  apply andb_true_iff in Hrow as [Hdom Hrest].
  apply andb_true_iff. split; [| done].
  apply bool_decide_eq_true in Hdom. apply bool_decide_eq_true.
  rewrite dom_insert. intros k Hk.
  apply elem_of_union in Hk as [Hk | Hk]; [| by apply Hdom].
  apply elem_of_singleton in Hk. subst k. by apply elem_of_list_to_set.
Qed.

Lemma no_wrong_fields_fill_row row name location :
  no_wrong_fields row = true →
  no_wrong_fields (fill_row row name location) = true.
Proof.
  intros Hrow. unfold fill_row.
  repeat case_match;
    repeat (apply no_wrong_fields_setitem;
            [apply list_elem_of_In; cbn; tauto |]); done.
Qed.

Lemma fill_row_None row : fill_row row None None = row.
Proof. reflexivity. Qed.

Lemma cell_fill_row row name location key :
  key ≠ "first_name" → key ≠ "last_name" → key ≠ "geo" →
  cell (fill_row row name location) key = cell row key.
Proof.
  intros H1 H2 H3. unfold fill_row.
  repeat case_match; rewrite ?cell_setitem;
    repeat case_decide; congruence.
Qed.

(** ** One target *)

Arguments process_row : simpl never.
Arguments extract_profile_info : simpl never.
Arguments rotate_if_needed : simpl never.
Arguments outcome_of_target : simpl never.
Arguments proactive_rotations : simpl never.

Section Target.

Variable env : Env.
Variable csv_file : string.

Lemma extract_profile_info_returns profile_url s :
  ∃ result s',
    extract_profile_info env profile_url s = (Returns result, s') ∧
    (result = (None, None) ∨
     ∃ name location, result = (Some name, Some location)) ∧
    files (world s') = files (world s) ∧
    ∃ records, log (world s') = (log (world s) ++ records)%list ∧
               rotation_records records.
Proof.
  destruct (while_runs_frame env profile_url 0 s _
              (extract_profile_info_runs env profile_url s))
    as ((result & Hres & Hshape) & Hfiles & _ & Hlog).
  destruct (extract_profile_info env profile_url s) as [o s'].
  cbn in *. subst o. by exists result, s'.
Qed.

Lemma proactive_rotations_app l records :
  proactive_rotations (l ++ records)
  = proactive_rotations l + proactive_rotations records.
Proof.
  unfold proactive_rotations. by rewrite List.filter_app, length_app.
Qed.

Lemma proactive_rotations_none records :
  rotation_records records → proactive_rotations records = 0.
Proof.
  unfold proactive_rotations, rotation_records.
  induction 1 as [|[lvl msg] records Hmsg _ IH]; [done |].
  cbn in *. unfold is_threshold_record. cbn. by destruct msg.
Qed.

(** Lines 189-194 raise nothing, load no page and leave the file. *)
Lemma rotate_if_needed_returns row s :
  ∃ row1 s1,
    rotate_if_needed env row s = (Returns row1, s1) ∧
    files (world s1) = files (world s) ∧
    page_loads (world s1) = page_loads (world s) ∧
    (is_Some (driver (self s)) → is_Some (driver (self s1))) ∧
    (row1 = row ∨ row1 = setitem row "IP change" "rotation") ∧
    proactive_rotations (log (world s1))
    = proactive_rotations (log (world s)) +
      (if 5 <=? consecutive_failures (self s) then 1 else 0).
Proof.
  destruct s as [[key cf cp drv] [pc hc cl pl lg fs]].
  unfold rotate_if_needed. unfold_M. cbn -[Nat.leb].
  destruct (5 <=? cf); cbn.
  - call_get_new_proxy env;
      destruct Hframe as (_ & _ & Hfiles & Hloads & Hdrv & recs & Hlog & Hrec);
      eexists _, _; (split; [reflexivity |]); cbn;
      repeat split; eauto;
      rewrite Hlog, !proactive_rotations_app,
        (proactive_rotations_none _ Hrec);
      unfold proactive_rotations; cbn; lia.
  - eexists _, _; (split; [reflexivity |]); cbn.
    repeat split; eauto; unfold proactive_rotations; lia.
Qed.

Lemma writerow_appends row s records :
  files (world s) !! csv_file = Some records →
  let r := writerow csv_file row s in
  if no_wrong_fields row
  then r.1 = Returns tt ∧ self r.2 = self s ∧
       files (world r.2) !! csv_file
       = Some (records ++ [cell row <$> fieldnames])%list
  else r.1 = Raises ValueError ∧ r.2 = s.
Proof.
  intros Hfile. unfold writerow.
  destruct (no_wrong_fields row); [| done].
  unfold write_record. unfold_M. cbn.
  repeat split. rewrite lookup_alter_eq, Hfile. done.
Qed.

Lemma writerow_log row s :
  log (world (writerow csv_file row s).2) = log (world s).
Proof.
  unfold writerow. destruct (no_wrong_fields row); [| done].
  unfold write_record. unfold_M. done.
Qed.

(** [process_row]: the target's outcome, then one call of [writerow]. *)
Lemma process_row_runs row profile_url s records :
  files (world s) !! csv_file = Some records →
  ∃ row1 result s2,
    outcome_of_target env row profile_url s = (Returns result, s2) ∧
    (row1 = row ∨ row1 = setitem row "IP change" "rotation") ∧
    (result = (None, None) ∨
     ∃ name location, result = (Some name, Some location)) ∧
    let final := fill_row row1 result.1 result.2 in
    let r := process_row env csv_file row profile_url s in
    proactive_rotations (log (world r.2))
    = proactive_rotations (log (world s)) +
      (if 5 <=? consecutive_failures (self s) then 1 else 0) ∧
    if no_wrong_fields final
    then r.1 = Returns tt ∧ self r.2 = self s2 ∧
         files (world r.2) !! csv_file
         = Some (records ++ [cell final <$> fieldnames])%list
    else r.1 = Raises ValueError ∧
         files (world r.2) !! csv_file = Some records.
Proof.
  intros Hfile.
  unfold process_row, outcome_of_target.
  unfold bind at 1 4. unfold logger at 1 2. unfold_M. cbn -[Nat.leb].
  match goal with
  | |- context [rotate_if_needed env row ?s0] =>
      destruct (rotate_if_needed_returns row s0)
        as (row1 & s1 & Hrot & Hfiles1 & _ & _ & Hrow1 & Hcount1)
  end.
  rewrite Hrot. cbn -[Nat.leb] in Hfiles1, Hcount1.
  destruct (extract_profile_info_returns profile_url s1)
    as (result & s2 & Hext & Hshape & Hfiles2 & recs & Hlog2 & Hrec2).
  rewrite Hext. destruct result as [name location].
  exists row1, (name, location), s2.
  split; [done |]. split; [done |]. split; [done |]. cbn -[Nat.leb].
  assert (Hfile2 : files (world s2) !! csv_file = Some records)
    by by rewrite Hfiles2, Hfiles1.
  split.
  { rewrite writerow_log, Hlog2, proactive_rotations_app,
      (proactive_rotations_none _ Hrec2), Hcount1,
      proactive_rotations_app.
    unfold proactive_rotations. cbn -[Nat.leb]. lia. }
  pose proof (writerow_appends (fill_row row1 name location) s2 records Hfile2)
    as Hw. cbn in Hw.
  destruct (no_wrong_fields (fill_row row1 name location)).
  - by destruct Hw as (? & ? & ?).
  - destruct Hw as (? & ->). done.
Qed.

End Target.

(** ** [process_profiles] *)

Section ProcessProfiles.

Variable env : Env.
Variable csv_file : string.

Lemma header_written_state s :
  self (header_written csv_file s) = self s ∧
  files (world (header_written csv_file s)) !! csv_file = Some [fieldnames] ∧
  log (world (header_written csv_file s)) = log (world s) ∧
  page_loads (world (header_written csv_file s)) = page_loads (world s).
Proof.
  unfold header_written, open_write, writeheader, write_record.
  unfold_M. cbn. repeat split.
  by rewrite lookup_alter_eq, lookup_insert_eq.
Qed.

(** A file that is not there: the exception is caught and logged. *)
Lemma process_profiles_no_file s :
  files (world s) !! csv_file = None →
  let r := process_profiles env csv_file s in
  r.1 = Returns tt ∧ files (world r.2) = files (world s).
Proof.
  intros Hfile. unfold process_profiles, open_read, quit_driver.
  unfold_M. cbn. rewrite Hfile. cbn.
  destruct (driver (self s)); done.
Qed.

(** The whole run on a file that is there. *)
Lemma process_profiles_runs s records :
  files (world s) !! csv_file = Some records →
  let r := process_profiles env csv_file s in
  r.1 = Returns tt ∧
  match DictReader records with
  | [] => files (world r.2) !! csv_file = Some [fieldnames]
  | row :: _ =>
      match fields row !! "prooflink" with
      | None => files (world r.2) !! csv_file = Some [fieldnames]
      | Some value =>
          if PyStr.truthy_opt value then
            ∃ row1 result s2,
              outcome_of_target env row (default "" value)
                (header_written csv_file s) = (Returns result, s2) ∧
              (row1 = row ∨ row1 = setitem row "IP change" "rotation") ∧
              (result = (None, None) ∨
               ∃ name location, result = (Some name, Some location)) ∧
              let final := fill_row row1 result.1 result.2 in
              if no_wrong_fields final
              then files (world r.2) !! csv_file
                   = Some [fieldnames; cell final <$> fieldnames] ∧
                   consecutive_failures (self r.2)
                   = consecutive_failures (self s2)
              else files (world r.2) !! csv_file = Some [fieldnames]
          else files (world r.2) !! csv_file = Some [fieldnames]
      end
  end.
Proof.
  intros Hfile.
  pose proof (header_written_state s) as (Hself & Hheader & _ & _).
  assert (Heq : process_profiles env csv_file s =
    try_finally
      (try_except
         (match DictReader records with
          | row :: _ =>
              profile_url ← getitem row "prooflink";
              if negb (PyStr.truthy_opt profile_url) then
                logger WARNING NoProfileUrl
              else
                process_row env csv_file row (default "" profile_url)
          | [] => ret tt
          end)
         (λ e, logger ERROR ErrorProcessingProfiles))
      quit_driver (header_written csv_file s)).
  { unfold process_profiles, header_written, try_finally, try_except,
      open_read, bind, get_world.
    cbv beta iota. rewrite Hfile. reflexivity. }
  cbv zeta. rewrite Heq. clear Heq.
  set (s0 := header_written csv_file s) in *. clearbody s0.
  unfold try_finally, try_except, quit_driver, getitem. unfold_M. cbv beta.
  destruct (DictReader records) as [|row rows].
  { cbn. destruct (driver (self s0)); done. }
  destruct (fields row !! "prooflink") as [value|].
  2: { cbn. destruct (driver (self s0)); done. }
  cbv beta iota.
  destruct (PyStr.truthy_opt value); cbn [negb]; cbv beta iota.
  2: { cbn. destruct (driver (self s0)); done. }
  destruct (process_row_runs env csv_file row (default "" value) s0
              [fieldnames] Hheader)
    as (row1 & result & s2 & Hout & Hrow1 & Hshape & Hrow).
  cbv zeta in Hrow. destruct Hrow as [_ Hrow].
  destruct (process_row env csv_file row (default "" value) s0) as [o s3].
  cbn [fst snd] in Hrow.
  destruct (no_wrong_fields (fill_row row1 result.1 result.2)) eqn:Hok.
  - destruct Hrow as (-> & Hself3 & Hfile3).
    cbn.
    destruct (driver (self s3)) eqn:Hd; cbn;
      (split; [done |]); exists row1, result, s2;
      (split; [done |]); (split; [done |]); (split; [done |]);
      rewrite Hok; (split; [done |]); by rewrite Hself3.
  - destruct Hrow as (-> & Hfile3).
    cbn.
    destruct (driver (self s3)) eqn:Hd; cbn;
      (split; [done |]); exists row1, result, s2;
      (split; [done |]); (split; [done |]); (split; [done |]);
      by rewrite Hok.
Qed.

End ProcessProfiles.

(** ** C5: the rotation threshold *)

(** C5 as stated fails: the threshold branch is also taken with more
    than 5 consecutive failures.  After two calls of [process_profiles]
    the counter is 7, and the third call rotates. *)
Lemma proactive_rotation_fires_above_five :
  ¬ (∀ env row s,
       proactive_rotations (log (world (rotate_if_needed env row s).2))
       = S (proactive_rotations (log (world s)))
       ↔ consecutive_failures (self s) = 5).
Proof.
  intros H.
  destruct (H Scenario.provider_down Scenario.blank_row
              Scenario.after_two_calls) as [Hfires _].
  assert (Hseven : consecutive_failures (self Scenario.after_two_calls) = 7)
    by (vm_compute; reflexivity).
  rewrite Hseven in Hfires.
  discriminate Hfires. vm_compute. reflexivity.
Qed.

(** C5, amended: the threshold branch of [process_profiles] is taken
    exactly when [consecutive_failures >= 5] at the start of a target,
    and never during [extract_profile_info].  When the rotation it asks
    for succeeds ([get_new_proxy] returns [True]), the egress identity
    has been rotated before any page of the target is loaded: the
    browser is a fresh one that runs with the candidate the provider
    returned and the probe validated; the row's ['IP change'] is
    ['rotation'] and the counter is 0. *)
Theorem proactive_rotation_at_threshold env csv_file row profile_url s :
  let r := rotate_if_needed env row s in
  let rotation :=
    get_new_proxy env (logger WARNING FiveConsecutiveFailures s).2 in
  (proactive_rotations (log (world r.2))
   = S (proactive_rotations (log (world s)))
   ↔ 5 ≤ consecutive_failures (self s)) ∧
  (5 ≤ consecutive_failures (self s) →
   rotation.1 = Returns true →
   r.1 = Returns (setitem row "IP change" "rotation") ∧
   consecutive_failures (self r.2) = 0 ∧
   page_loads (world r.2) = page_loads (world s) ∧
   ∃ text body,
     proxyscrape env (proxyscrape_calls (world s)) = HttpResponse 200 text ∧
     httpbin env (httpbin_calls (world s)) (Some (PyStr.strip text))
       = HttpResponse 200 body ∧
     current_proxy (self r.2) = Some (PyStr.strip text) ∧
     driver (self r.2) =
       Some {| drv_proxy := proxy_server_of (Some (PyStr.strip text));
               drv_quit := false |}) ∧
  (consecutive_failures (self s) < 5 → r = (Returns row, s)) ∧
  (∀ s0,
     proactive_rotations
       (log (world (extract_profile_info env profile_url s0).2))
     = proactive_rotations (log (world s0))) ∧
  (∀ records,
     files (world s) !! csv_file = Some records →
     proactive_rotations
       (log (world (process_row env csv_file row profile_url s).2))
     = proactive_rotations (log (world s)) +
       (if 5 <=? consecutive_failures (self s) then 1 else 0)).
Proof.
  cbv zeta. split; [| split; [| split; [| split]]].
  - destruct (rotate_if_needed_returns env row s)
      as (row1 & s1 & Hrot & _ & _ & _ & _ & Hcount).
    rewrite Hrot. cbn -[Nat.leb]. rewrite Hcount.
    destruct (5 <=? consecutive_failures (self s)) eqn:Hle.
    + apply Nat.leb_le in Hle. split; [done | lia].
    + apply Nat.leb_gt in Hle. split; lia.
  - intros Hle Htrue. apply Nat.leb_le in Hle.
    destruct s as [[key cf cp drv] [pc hc cl pl lg fs]].
    unfold rotate_if_needed. unfold_M. cbn -[Nat.leb] in *. rewrite Hle.
    match goal with
    | |- context [get_new_proxy env ?s1] =>
        pose proof (get_new_proxy_frame env s1) as Hframe;
        destruct (get_new_proxy env s1) as [o s2] eqn:Hrun;
        cbn in Hframe;
        destruct Hframe as (_ & _ & _ & Hloads & _)
    end.
    cbn in Hrun. rewrite Hrun in Htrue. cbn in Htrue. subst o.
    destruct (get_new_proxy_True env _ _ Hrun)
      as (text & body & Hp & Hv & _ & Hcp & Hdrv).
    cbn in Hp, Hv. cbn.
    repeat split; [done |]. by exists text, body.
  - intros Hlt. apply Nat.leb_gt in Hlt.
    destruct s as [[key cf cp drv] [pc hc cl pl lg fs]].
    unfold rotate_if_needed. unfold_M. cbn -[Nat.leb] in *. by rewrite Hlt.
  - intros s0.
    destruct (extract_profile_info_returns env profile_url s0)
      as (result & s' & Hext & _ & _ & records & Hlog & Hrec).
    rewrite Hext. cbn. rewrite Hlog, proactive_rotations_app.
    rewrite (proactive_rotations_none _ Hrec). lia.
  - intros records Hfile.
    destruct (process_row_runs env csv_file row profile_url s records Hfile)
      as (_ & _ & _ & _ & _ & _ & Hcount & _).
    exact Hcount.
Qed.

Lemma proactive_rotation_at_threshold_witness :
  let r := rotate_if_needed Scenario.no_page Scenario.blank_row
             Scenario.five_failures in
  r.1 = Returns (setitem Scenario.blank_row "IP change" "rotation") ∧
  consecutive_failures (self r.2) = 0 ∧
  page_loads (world r.2) = page_loads (world Scenario.five_failures) ∧
  drv_proxy <$> driver (self r.2) = Some (Some "203.0.113.7:8080").
Proof.
  cbv zeta.
  destruct (proj1 (proj2 (proactive_rotation_at_threshold
                            Scenario.no_page Scenario.csv_file
                            Scenario.blank_row Scenario.jane_url
                            Scenario.five_failures)))
    as (Hrow & Hcf & Hloads & text & body & Hp & _ & _ & Hdrv).
  - vm_compute. lia.
  - vm_compute. reflexivity.
  - split; [exact Hrow |]. split; [exact Hcf |]. split; [exact Hloads |].
    rewrite Hdrv. vm_compute in Hp. injection Hp as <-.
    vm_compute. reflexivity.
Defined.

(** ** C8: errors stay within the target *)

(** C8: an exception raised during an attempt is logged and counted as
    the classified failures are ([attempts] and [consecutive_failures]
    both grow by 1), the attempt is made again until [max_attempts],
    and [process_profiles] raises nothing, whatever the file and the
    outside world. *)
Theorem errors_are_target_scoped env :
  (∀ profile_url attempts s,
     (∀ d, driver (self s) = Some d →
           navigate env (page_loads (world s)) d profile_url = NavError) →
     let r := attempt env profile_url attempts s in
     r.1 = Returns (Continue (attempts + 1)) ∧
     consecutive_failures (self r.2) = consecutive_failures (self s) + 1 ∧
     log (world r.2)
     = (log (world s) ++
        [(INFO, AttemptingToExtract profile_url);
         (ERROR, ErrorExtracting)])%list) ∧
  (∀ profile_url attempts s d page,
     driver (self s) = Some d →
     navigate env (page_loads (world s)) d profile_url = NavLoaded page →
     classify_page env page ≠ Success →
     let r := attempt env profile_url attempts s in
     consecutive_failures (self r.2) = consecutive_failures (self s) + 1 ∧
     (r.1 = Returns (Continue (attempts + 1)) ∨
      r.1 = Returns (Return (None, None)))) ∧
  (∀ profile_url s d,
     driver (self s) = Some d →
     (∀ k, k < max_attempts →
           navigate env (page_loads (world s) + k) d profile_url = NavError) →
     let r := extract_profile_info env profile_url s in
     r.1 = Returns (None, None) ∧
     consecutive_failures (self r.2)
     = consecutive_failures (self s) + max_attempts ∧
     page_loads (world r.2) = page_loads (world s) + max_attempts) ∧
  (∀ csv_file s, (process_profiles env csv_file s).1 = Returns tt).
Proof.
  split; [| split; [| split]].
  - intros profile_url attempts s Hnav.
    destruct (attempt_raises env profile_url attempts s Hnav)
      as (Hflow & Hcf & Hlog & _).
    done.
  - intros profile_url attempts s d page Hd Hnav Hfail.
    destruct (attempt_outcome env profile_url attempts s)
      as [(d' & page' & Hd' & Hnav' & Hc & _) | (_ & Hcf & Hflow)].
    + rewrite Hd in Hd'. simplify_eq. rewrite Hnav in Hnav'. by simplify_eq.
    + done.
  - intros profile_url s d Hd Hnav.
    destruct (while_attempts_all_raise env profile_url max_attempts 0 s d)
      as (Hres & Hcf & Hloads & _); [lia | lia | done | |].
    + intros k Hk. apply Hnav. lia.
    + unfold extract_profile_info. rewrite Nat.sub_0_r in *. done.
  - intros csv_file s.
    destruct (files (world s) !! csv_file) as [records|] eqn:Hfile.
    + by destruct (process_profiles_runs env csv_file s records Hfile).
    + by destruct (process_profiles_no_file env csv_file s Hfile).
Qed.

Lemma errors_are_target_scoped_witness :
  let r := extract_profile_info Scenario.offline Scenario.jane_url
             (Scenario.start Scenario.offline) in
  r.1 = Returns (None, None) ∧
  consecutive_failures (self r.2) = 5.
Proof.
  cbv zeta.
  destruct (proj1 (proj2 (proj2 (errors_are_target_scoped Scenario.offline)))
              Scenario.jane_url (Scenario.start Scenario.offline)
              {| drv_proxy := None; drv_quit := false |})
    as (Hres & Hcf & _).
  - vm_compute. reflexivity.
  - intros k _. reflexivity.
  - split; [exact Hres | exact Hcf].
Defined.

(** ** C7: one row per target *)

(** C7 as stated fails: a record with one cell more than the header is
    read into a row that holds the extra cell under the reader's
    [restkey]; the target is processed (its page is loaded, and the
    fields are found), [writerow] raises on the extra key, and the file
    is left with the header and no row. *)
Lemma long_record_is_not_written :
  ¬ (∀ env csv_file s records row rows profile_url,
       files (world s) !! csv_file = Some records →
       DictReader records = row :: rows →
       fields row !! "prooflink" = Some (Some profile_url) →
       PyStr.truthy profile_url = true →
       ∃ record,
         files (world (process_profiles env csv_file s).2) !! csv_file
         = Some [fieldnames; record]).
Proof.
  intros H.
  destruct (H Scenario.friendly Scenario.csv_file
              (with_file Scenario.csv_file Scenario.long_records
                 (Scenario.start Scenario.friendly))
              Scenario.long_records
              (dict_of_record fieldnames
                 [""; ""; ""; Scenario.jane_url; ""; "note"])
              [] Scenario.jane_url)
    as (record & Hfile);
    [vm_compute; reflexivity ..|].
  assert (Hrun : files (world (process_profiles Scenario.friendly
                                 Scenario.csv_file
                                 (with_file Scenario.csv_file
                                    Scenario.long_records
                                    (Scenario.start Scenario.friendly))).2)
                 !! Scenario.csv_file = Some [fieldnames])
    by (vm_compute; reflexivity).
  rewrite Hrun in Hfile. discriminate Hfile.
Qed.

(** C7, amended: for a processed target whose row has no column
    outside the fixed field set and no cell beyond the header (a first
    row with a non-empty [prooflink] that [writerow] accepts),
    [process_profiles] writes the header and exactly one row, whether
    [extract_profile_info] returned the fields or [(None, None)]; for
    a target given up the cells [first_name], [last_name] and [geo] of
    the row are those of the input row, blank when they were blank. *)
Theorem one_row_per_target env csv_file s records row rows profile_url :
  files (world s) !! csv_file = Some records →
  DictReader records = row :: rows →
  fields row !! "prooflink" = Some (Some profile_url) →
  PyStr.truthy profile_url = true →
  no_wrong_fields row = true →
  let r := process_profiles env csv_file s in
  let target :=
    (outcome_of_target env row profile_url (header_written csv_file s)).1 in
  r.1 = Returns tt ∧
  (target = Returns (None, None) ∨
   ∃ name location, target = Returns (Some name, Some location)) ∧
  ∃ record,
    files (world r.2) !! csv_file = Some [fieldnames; record] ∧
    length record = 5 ∧
    (target = Returns (None, None) →
     record !! 0 = Some (cell row "first_name") ∧
     record !! 1 = Some (cell row "last_name") ∧
     record !! 2 = Some (cell row "geo")).
Proof.
  intros Hfile Hrows Hlink Htruthy Hfields.
  destruct (process_profiles_runs env csv_file s records Hfile)
    as (Hret & Hrun).
  rewrite Hrows, Hlink in Hrun.
  change (default "" (Some profile_url)) with profile_url in Hrun.
  cbn [PyStr.truthy_opt] in Hrun. rewrite Htruthy in Hrun.
  destruct Hrun as (row1 & result & s2 & Hout & Hrow1 & Hshape & Hfinal).
  cbv zeta in Hfinal. cbv zeta. rewrite Hout. cbn [fst].
  assert (Hfields1 : no_wrong_fields row1 = true).
  { destruct Hrow1 as [-> | ->]; [done |].
    apply no_wrong_fields_setitem; [| done].
    apply list_elem_of_In. cbn. tauto. }
  rewrite (no_wrong_fields_fill_row _ _ _ Hfields1) in Hfinal.
  destruct Hfinal as (Hwritten & _).
  split; [done |]. split.
  { destruct Hshape as [-> | (n & l & ->)]; eauto. }
  eexists. split; [exact Hwritten |]. split; [done |].
  intros Hnone. simplify_eq. cbn [fst snd]. rewrite fill_row_None. cbn.
  destruct Hrow1 as [-> | ->]; [done |].
  rewrite !cell_setitem. repeat case_decide; done.
Qed.

Lemma one_row_per_target_witness :
  let r := process_profiles Scenario.provider_down Scenario.csv_file
             (Scenario.start Scenario.provider_down) in
  r.1 = Returns tt ∧
  files (world r.2) !! Scenario.csv_file
  = Some [fieldnames; [""; ""; ""; Scenario.jane_url; ""]].
Proof.
  cbv zeta.
  destruct (one_row_per_target Scenario.provider_down Scenario.csv_file
              (Scenario.start Scenario.provider_down)
              Scenario.input_records Scenario.blank_row
              [dict_of_record fieldnames
                 [""; ""; ""; "https://www.linkedin.com/in/john-roe"; ""]]
              Scenario.jane_url)
    as (Hret & _ & record & Hfile & _).
  - vm_compute. reflexivity.
  - vm_compute. reflexivity.
  - vm_compute. reflexivity.
  - vm_compute. reflexivity.
  - vm_compute. reflexivity.
  - split; [exact Hret |]. vm_compute. reflexivity.
Defined.

(** ** C9: a page that loads and has the fields *)

Arguments target_start : simpl never.

Section FirstSuccess.

Variable env : Env.
Variable profile_url : string.

Lemma while_attempts_step fuel attempts s :
  attempts < max_attempts →
  while_attempts env (S fuel) profile_url attempts s =
    match attempt env profile_url attempts s with
    | (Returns (Continue attempts'), s') =>
        while_attempts env fuel profile_url attempts' s'
    | (Returns (Return result), s') => (Returns result, s')
    | (Raises e, s') => (Raises e, s')
    end.
Proof.
  intros Hlt. rewrite while_attempts_unfold.
  apply Nat.ltb_lt in Hlt. rewrite Hlt. unfold bind, ret.
  by destruct (attempt env profile_url attempts s) as [[[?|?]|?] ?].
Qed.

(** What an attempt returns at a head the loop reaches is what the
    loop returns. *)
Lemma loop_returns_what_attempt_returns x y result s'' :
  rtc (loop_step env profile_url) x y →
  y.1 < max_attempts →
  attempt env profile_url y.1 y.2 = (Returns (Return result), s'') →
  ∀ fuel, max_attempts - x.1 ≤ fuel →
    while_attempts env fuel profile_url x.1 x.2 = (Returns result, s'').
Proof.
  induction 1 as [[a s] | [a s] [a' s'] z Hstep Hrest IH];
    intros Hlt Hrun fuel Hfuel; cbn [fst snd] in *.
  - destruct fuel as [|fuel]; [unfold max_attempts in *; lia |].
    by rewrite while_attempts_step, Hrun.
  - pose proof (loop_step_counts _ _ _ _ Hstep) as [Hlt' Hnext].
    inversion Hstep as [? ? ? ? _ Hcont]; subst. cbn [fst snd] in *.
    destruct fuel as [|fuel]; [unfold max_attempts in *; lia |].
    rewrite while_attempts_step, Hcont by done.
    apply IH; [done | done | lia].
Qed.

Lemma outcome_of_target_from_start row s :
  outcome_of_target env row profile_url s
  = extract_profile_info env profile_url (target_start env row profile_url s).
Proof.
  unfold outcome_of_target, target_start.
  unfold bind at 1 3. unfold logger. unfold_M. cbn -[Nat.leb].
  match goal with
  | |- context [rotate_if_needed env row ?s0] =>
      destruct (rotate_if_needed_returns env row s0)
        as (row1 & s1 & Hrot & _)
  end.
  by rewrite Hrot.
Qed.

End FirstSuccess.

(** C9: when a fetch made for the target yields a page that lies on
    linkedin without error or login markers, and the name and the
    location extracted from it are ["Jane Doe"] and ["Remote"], the
    attempt is classified [Success] and the row written for the target
    has [first_name = "Jane"], [last_name = "Doe"] and
    [geo = "Remote"]: the name is cut at its first space. *)
Theorem jane_doe_row_written env csv_file s records row rows profile_url
    attempts s' d page :
  files (world s) !! csv_file = Some records →
  DictReader records = row :: rows →
  fields row !! "prooflink" = Some (Some profile_url) →
  PyStr.truthy profile_url = true →
  no_wrong_fields row = true →
  rtc (loop_step env profile_url)
      (0, target_start env row profile_url (header_written csv_file s))
      (attempts, s') →
  attempts < max_attempts →
  driver (self s') = Some d →
  navigate env (page_loads (world s')) d profile_url = NavLoaded page →
  is_error_page page = false →
  is_login_wall page = false →
  on_linkedin page = true →
  extract_name env page = Some "Jane Doe" →
  extract_location env page = Some "Remote" →
  let r := process_profiles env csv_file s in
  classify env (current_url page) (title page) (page_source page) = Success ∧
  r.1 = Returns tt ∧
  consecutive_failures (self r.2) = 0 ∧
  ∃ record,
    files (world r.2) !! csv_file = Some [fieldnames; record] ∧
    record !! 0 = Some "Jane" ∧
    record !! 1 = Some "Doe" ∧
    record !! 2 = Some "Remote".
Proof.
  intros Hfile Hrows Hlink Htruthy Hfields Hreach Hlt Hd Hnav Herr Hlogin
    Hlinked Hname Hloc.
  assert (Hok : classify_page env page = Success).
  { rewrite classify_page_checks, Herr, Hlogin, Hlinked. cbn.
    unfold name_or_location_is_None. by rewrite Hname, Hloc. }
  cbv zeta. split; [exact Hok |].
  assert (Hattempt : ∃ s'',
            attempt env profile_url attempts s'
            = (Returns (Return (Some "Jane Doe", Some "Remote")), s'') ∧
            consecutive_failures (self s'') = 0).
  { destruct (attempt_outcome env profile_url attempts s')
      as [(d' & page' & Hd' & Hnav' & _ & _ & _ & Hres & Hcf) | (Hno & _)].
    - rewrite Hd in Hd'. simplify_eq. rewrite Hnav in Hnav'. simplify_eq.
      rewrite Hname, Hloc in Hres.
      destruct (attempt env profile_url attempts s') as [o s''].
      cbn in Hres, Hcf. subst o. by exists s''.
    - by destruct (Hno d page Hd Hnav Hok). }
  destruct Hattempt as (s'' & Hattempt & Hcf).
  pose proof (loop_returns_what_attempt_returns env profile_url _ _ _ _
                Hreach Hlt Hattempt max_attempts) as Hloop.
  cbn [fst snd] in Hloop. specialize (Hloop (Nat.le_sub_l _ _)).
  destruct (process_profiles_runs env csv_file s records Hfile)
    as (Hret & Hrun).
  rewrite Hrows, Hlink in Hrun.
  change (default "" (Some profile_url)) with profile_url in Hrun.
  cbn [PyStr.truthy_opt] in Hrun. rewrite Htruthy in Hrun.
  destruct Hrun as (row1 & result & s2 & Hout & Hrow1 & _ & Hfinal).
  rewrite outcome_of_target_from_start in Hout.
  unfold extract_profile_info in Hout. rewrite Hloop in Hout. simplify_eq.
  cbv zeta in Hfinal. cbn [fst snd] in Hfinal.
  assert (Hfields1 : no_wrong_fields row1 = true).
  { destruct Hrow1 as [-> | ->]; [done |].
    apply no_wrong_fields_setitem; [| done].
    apply list_elem_of_In. cbn. tauto. }
  rewrite (no_wrong_fields_fill_row _ _ _ Hfields1) in Hfinal.
  destruct Hfinal as (Hwritten & Hcf').
  split; [done |]. split; [congruence |].
  eexists. split; [exact Hwritten |].
  cbn. unfold fill_row. cbn. rewrite !cell_setitem.
  repeat case_decide; done.
Qed.

Lemma jane_doe_row_written_witness :
  let r := process_profiles Scenario.friendly Scenario.csv_file
             (Scenario.start Scenario.friendly) in
  r.1 = Returns tt ∧
  files (world r.2) !! Scenario.csv_file
  = Some [fieldnames; ["Jane"; "Doe"; "Remote"; Scenario.jane_url; ""]].
Proof.
  cbv zeta.
  destruct (jane_doe_row_written Scenario.friendly Scenario.csv_file
              (Scenario.start Scenario.friendly)
              Scenario.input_records Scenario.blank_row
              [dict_of_record fieldnames
                 [""; ""; ""; "https://www.linkedin.com/in/john-roe"; ""]]
              Scenario.jane_url 0
              (target_start Scenario.friendly Scenario.blank_row
                 Scenario.jane_url
                 (header_written Scenario.csv_file
                    (Scenario.start Scenario.friendly)))
              {| drv_proxy := None; drv_quit := false |}
              Scenario.jane_page)
    as (_ & Hret & _).
  - vm_compute. reflexivity.
  - vm_compute. reflexivity.
  - vm_compute. reflexivity.
  - vm_compute. reflexivity.
  - vm_compute. reflexivity.
  - apply rtc_refl.
  - unfold max_attempts. lia.
  - vm_compute. reflexivity.
  - vm_compute. reflexivity.
  - vm_compute. reflexivity.
  - vm_compute. reflexivity.
  - vm_compute. reflexivity.
  - vm_compute. reflexivity.
  - vm_compute. reflexivity.
  - split; [exact Hret |]. vm_compute. reflexivity.
Defined.

(** ** C10: the file after the run *)

Lemma cell_prooflink_truthy row value :
  fields row !! "prooflink" = Some value →
  PyStr.truthy_opt value = true →
  cell row "prooflink" ≠ "".
Proof.
  unfold cell. intros -> Htruthy.
  destruct value as [[|c url]|]; cbn in Htruthy; done.
Qed.

Lemma cell_prooflink_falsy row value :
  fields row !! "prooflink" = Some value →
  PyStr.truthy_opt value = false →
  cell row "prooflink" = "".
Proof.
  unfold cell. intros -> Hfalsy.
  destruct value as [[|c url]|]; cbn in Hfalsy; done.
Qed.

(** C10: [process_profiles] rewrites an input file with a header and at
    least one data row in place: afterwards the file holds the header
    of the fixed field set and at most one row, whatever the number of
    data rows was; the row, when there is one, carries the [prooflink]
    of the first input row, and when that is empty no row is written. *)
Theorem csv_rewritten_in_place env csv_file s header data :
  files (world s) !! csv_file = Some (header :: data) →
  1 ≤ length data →
  let r := process_profiles env csv_file s in
  ∃ written,
    files (world r.2) !! csv_file = Some (fieldnames :: written) ∧
    length written ≤ 1 ∧
    (∀ record,
       written = [record] →
       ∃ row rows,
         DictReader (header :: data) = row :: rows ∧
         cell row "prooflink" ≠ "" ∧
         record !! 3 = Some (cell row "prooflink")) ∧
    (∀ row rows,
       DictReader (header :: data) = row :: rows →
       cell row "prooflink" = "" →
       written = []).
Proof.
  intros Hfile _.
  destruct (process_profiles_runs env csv_file s _ Hfile) as (_ & Hrun).
  cbv zeta.
  destruct (DictReader (header :: data)) as [|row rows] eqn:Hrows.
  { exists []. split; [done |]. split; [cbn; lia |]. split; done. }
  destruct (fields row !! "prooflink") as [value|] eqn:Hlink.
  2: { exists []. split; [done |]. split; [cbn; lia |]. split; done. }
  destruct (PyStr.truthy_opt value) eqn:Htruthy.
  2: { exists []. split; [done |]. split; [cbn; lia |]. split; done. }
  pose proof (cell_prooflink_truthy row value Hlink Htruthy) as Hcell.
  destruct Hrun as (row1 & result & s2 & _ & Hrow1 & _ & Hfinal).
  cbv zeta in Hfinal.
  destruct (no_wrong_fields (fill_row row1 result.1 result.2)).
  - destruct Hfinal as (Hwritten & _).
    eexists [_]. split; [exact Hwritten |]. split; [cbn; lia |]. split.
    + intros record Hrecord. simplify_eq. exists row, rows.
      split; [done |]. split; [done |].
      cbn. rewrite cell_fill_row by done.
      destruct Hrow1 as [-> | ->]; [done |].
      rewrite cell_setitem. by case_decide.
    + intros row' rows' Heq Hblank. by simplify_eq.
  - exists []. split; [done |]. split; [cbn; lia |]. split; [done |].
    done.
Qed.

Lemma csv_rewritten_in_place_witness :
  ∃ written,
    files (world (process_profiles Scenario.provider_down Scenario.csv_file
                    (Scenario.start Scenario.provider_down)).2)
      !! Scenario.csv_file = Some (fieldnames :: written) ∧
    length written ≤ 1.
Proof.
  destruct (csv_rewritten_in_place Scenario.provider_down Scenario.csv_file
              (Scenario.start Scenario.provider_down) fieldnames
              (tail Scenario.input_records))
    as (written & Hfile & Hlen & _).
  - vm_compute. reflexivity.
  - cbn. lia.
  - exists written. split; [exact Hfile | exact Hlen].
Defined.

(** * Further properties of the scraper *)

(** ** [validate_proxy] and [get_new_proxy] *)

Section Rotation.

Variable env : Env.

(** X1: [validate_proxy] makes one probe through [current_proxy],
    returns [True] exactly when the probe answers with status 200 (an
    exception or another status gives [False]), raises nothing, leaves
    the scraper as it was and asks for no proxy and no browser; it logs
    one error, and so writes to the log file, exactly when the probe
    raised. *)
Theorem validate_proxy_status_200 s :
  let r := validate_proxy env s in
  r.1 = Returns
          match httpbin env (httpbin_calls (world s))
                        (current_proxy (self s)) with
          | HttpResponse status_code _ => (status_code =? 200)%Z
          | HttpError => false
          end ∧
  self r.2 = self s ∧
  log (world r.2)
  = (log (world s) ++
     match httpbin env (httpbin_calls (world s)) (current_proxy (self s)) with
     | HttpResponse _ _ => []
     | HttpError => [(ERROR, ProxyValidationFailed)]
     end)%list ∧
  httpbin_calls (world r.2) = S (httpbin_calls (world s)) ∧
  proxyscrape_calls (world r.2) = proxyscrape_calls (world s) ∧
  chrome_launches (world r.2) = chrome_launches (world s).
Proof.
  destruct s as [[key cf cp drv] [pc hc cl pl lg fs]].
  unfold validate_proxy, requests_get_httpbin. unfold_M. cbn.
  destruct (httpbin env hc cp); cbn; by rewrite ?app_nil_r.
Qed.

(** X2: [get_new_proxy] returns [True] exactly when the provider
    answers with status 200, the probe through the stripped candidate
    answers with status 200, and Chrome starts. *)
Theorem get_new_proxy_True_iff s :
  (get_new_proxy env s).1 = Returns true ↔
  ∃ text body,
    proxyscrape env (proxyscrape_calls (world s)) = HttpResponse 200 text ∧
    httpbin env (httpbin_calls (world s)) (Some (PyStr.strip text))
      = HttpResponse 200 body ∧
    chrome env (chrome_launches (world s)) = true.
Proof.
  split.
  - intros Hret.
    destruct (get_new_proxy env s) as [o s'] eqn:Hrun. cbn in Hret. subst o.
    destruct (get_new_proxy_True env _ _ Hrun)
      as (text & body & Hp & Hv & Hc & _).
    by exists text, body.
  - intros (text & body & Hp & Hv & Hc).
    destruct s as [[key cf cp drv] [pc hc cl pl lg fs]]. cbn in Hp, Hv, Hc.
    run_get_new_proxy. rewrite Hp. cbn. rewrite Hv. cbn.
    destruct drv; cbn; by rewrite Hc.
Qed.

(** X3: [get_new_proxy] asks the provider once; it probes only a
    candidate that came with status 200, and starts Chrome only for a
    candidate that passed the probe. *)
Theorem get_new_proxy_calls s :
  let r := get_new_proxy env s in
  let provided :=
    match proxyscrape env (proxyscrape_calls (world s)) with
    | HttpResponse status_code text =>
        if (status_code =? 200)%Z then Some (PyStr.strip text) else None
    | HttpError => None
    end in
  let valid :=
    match provided with
    | Some proxy =>
        match httpbin env (httpbin_calls (world s)) (Some proxy) with
        | HttpResponse status_code _ => (status_code =? 200)%Z
        | HttpError => false
        end
    | None => false
    end in
  proxyscrape_calls (world r.2) = S (proxyscrape_calls (world s)) ∧
  httpbin_calls (world r.2)
  = (if provided is Some _ then S (httpbin_calls (world s))
     else httpbin_calls (world s)) ∧
  chrome_launches (world r.2)
  = (if valid then S (chrome_launches (world s))
     else chrome_launches (world s)) ∧
  current_proxy (self r.2)
  = (if provided is Some proxy then Some proxy else current_proxy (self s)).
Proof.
  destruct s as [[key cf cp drv] [pc hc cl pl lg fs]].
  run_get_new_proxy.
  destruct (proxyscrape env pc) as [|status_code text]; cbn; [done |].
  destruct (status_code =? 200)%Z; cbn; [| done].
  destruct (httpbin env hc _) as [|status_code' body]; cbn; [done |].
  destruct (status_code' =? 200)%Z; cbn; [| done].
  destruct drv; cbn; by destruct (chrome env cl).
Qed.

(** X4: when the candidate passed the probe but Chrome does not start,
    [get_new_proxy] returns [False] after the browser in use has been
    quit: the scraper is left with a browser that is not running and
    with the candidate in [current_proxy]. *)
Theorem get_new_proxy_failed_launch s d text body :
  driver (self s) = Some d →
  proxyscrape env (proxyscrape_calls (world s)) = HttpResponse 200 text →
  httpbin env (httpbin_calls (world s)) (Some (PyStr.strip text))
    = HttpResponse 200 body →
  chrome env (chrome_launches (world s)) = false →
  let r := get_new_proxy env s in
  r.1 = Returns false ∧
  driver (self r.2) = Some (quit d) ∧
  current_proxy (self r.2) = Some (PyStr.strip text) ∧
  browser_released (self r.2).
Proof.
  destruct s as [[key cf cp drv] [pc hc cl pl lg fs]]. cbn.
  intros -> Hp Hv Hc.
  run_get_new_proxy. rewrite Hp. cbn. rewrite Hv. cbn. rewrite Hc. cbn.
  done.
Qed.

End Rotation.

Lemma get_new_proxy_True_iff_witness :
  (get_new_proxy Scenario.friendly (Scenario.start Scenario.friendly)).1
  = Returns true.
Proof.
  apply (get_new_proxy_True_iff Scenario.friendly).
  eexists _, _. vm_compute. repeat split; reflexivity.
Defined.

Lemma get_new_proxy_failed_launch_witness :
  let r := get_new_proxy Scenario.one_browser
             (Scenario.start Scenario.one_browser) in
  r.1 = Returns false ∧
  driver (self r.2) = Some {| drv_proxy := None; drv_quit := true |}.
Proof.
  cbv zeta.
  destruct (get_new_proxy_failed_launch Scenario.one_browser
              (Scenario.start Scenario.one_browser)
              {| drv_proxy := None; drv_quit := false |}
              "203.0.113.7:8080" "{}")
    as (Hret & Hdrv & _).
  - vm_compute. reflexivity.
  - vm_compute. reflexivity.
  - vm_compute. reflexivity.
  - vm_compute. reflexivity.
  - split; [exact Hret | exact Hdrv].
Defined.

(** ** The strings the scraper keeps *)

(** X5: the proxy that [get_new_proxy] stores and launches the browser
    with neither starts nor ends with white space: the line break after
    the provider's answer is dropped. *)
Theorem stored_proxy_is_stripped env s s' :
  get_new_proxy env s = (Returns true, s') →
  ∃ proxy,
    current_proxy (self s') = Some proxy ∧
    (∀ c, first_char proxy = Some c ∨ last_char proxy = Some c →
          PyStr.is_space c = false) ∧
    (drv_proxy <$> driver (self s') = Some (Some proxy) ∨
     proxy = "" ∧ drv_proxy <$> driver (self s') = Some None).
Proof.
  intros Hrun.
  destruct (get_new_proxy_True env _ _ Hrun)
    as (text & body & _ & _ & _ & Hcp & Hdrv).
  exists (PyStr.strip text). split; [done |]. split.
  - intros c. apply strip_outer_chars.
  - rewrite Hdrv. cbn. unfold proxy_server_of. cbn.
    destruct (PyStr.strip text); cbn; eauto.
Qed.

Lemma stored_proxy_is_stripped_witness :
  ∃ proxy,
    current_proxy (self (get_new_proxy Scenario.friendly
                           (Scenario.start Scenario.friendly)).2)
    = Some proxy ∧
    last_char proxy = Some "0"%char.
Proof.
  destruct (stored_proxy_is_stripped Scenario.friendly
              (Scenario.start Scenario.friendly)
              (get_new_proxy Scenario.friendly
                 (Scenario.start Scenario.friendly)).2)
    as (proxy & Hcp & _).
  - vm_compute. reflexivity.
  - exists proxy. split; [exact Hcp |].
    vm_compute in Hcp. injection Hcp as <-. reflexivity.
Defined.

(** X6: a URL is taken for a login wall exactly when [login] or
    [authwall] occurs somewhere in it, whatever stands around it. *)
Theorem is_login_wall_occurs page :
  is_login_wall page = true ↔
  ∃ pre post,
    current_url page = pre ++ "login" ++ post ∨
    current_url page = pre ++ "authwall" ++ post.
Proof.
  unfold is_login_wall. rewrite orb_true_iff, !contains_occurs. split.
  - intros [(pre & post & H) | (pre & post & H)]; exists pre, post; eauto.
  - intros (pre & post & [H | H]); [left | right]; by exists pre, post.
Qed.

(** X7: lines 198-201 cut the name at its first space: the first name
    has no space, and the first name, a space and the last name give
    the name back; a name without a space is the first name, with an
    empty last name. *)
Theorem name_is_cut_at_first_space row name location :
  PyStr.truthy name = true →
  let row' := fill_row row (Some name) location in
  let first_name := cell row' "first_name" in
  let last_name := cell row' "last_name" in
  PyStr.contains " " first_name = false ∧
  (if PyStr.contains " " name
   then name = first_name ++ " " ++ last_name
   else first_name = name ∧ last_name = "").
Proof.
  intros Htruthy. cbv zeta. unfold fill_row, PyStr.split_space_1.
  cbn [PyStr.truthy_opt]. rewrite Htruthy.
  change (default "" (Some name)) with name.
  destruct (PyStr.cut_at_space name) as [[a b]|] eqn:Hcut;
    destruct (PyStr.truthy_opt location);
    cbn [nth length Nat.ltb Nat.leb];
    rewrite !cell_setitem; repeat case_decide; try done.
  1, 2: destruct (cut_at_space_Some _ _ _ Hcut) as [Hname Hno];
        (split; [done |]);
        assert (Hin : PyStr.contains " " name = true)
          by (apply contains_occurs; by exists a, b);
        by rewrite Hin.
  all: pose proof (cut_at_space_None _ Hcut) as Hno; by rewrite Hno.
Qed.

Lemma name_is_cut_at_first_space_witness :
  cell (fill_row Scenario.blank_row (Some "Jane van Doe") None) "last_name"
  = "van Doe".
Proof.
  pose proof (name_is_cut_at_first_space Scenario.blank_row "Jane van Doe"
                None eq_refl) as [_ Hname].
  vm_compute. reflexivity.
Defined.

(** ** What a call of [extract_profile_info] costs and leaves *)

Section Cost.

Variable env : Env.
Variable profile_url : string.

(** An attempt loads at most one page, and asks for a proxy only after
    a page it loaded. *)
Lemma attempt_counts attempts s :
  let s' := (attempt env profile_url attempts s).2 in
  page_loads (world s) ≤ page_loads (world s') ∧
  page_loads (world s') ≤ S (page_loads (world s)) ∧
  proxyscrape_calls (world s) ≤ proxyscrape_calls (world s') ∧
  proxyscrape_calls (world s') - proxyscrape_calls (world s)
  ≤ page_loads (world s') - page_loads (world s).
Proof.
  destruct s as [[key cf cp drv] [pc hc cl pl lg fs]].
  run_attempt.
  destruct drv as [d|]; cbn;
    [destruct (navigate env _ _ _) as [|page]; cbn; [| inspect page] |];
    try match goal with
        | |- context [get_new_proxy env ?s1] =>
            pose proof (get_new_proxy_requests env s1) as Hreq;
            pose proof (get_new_proxy_frame env s1) as Hframe;
            destruct (get_new_proxy_returns env s1) as [b Hret];
            destruct (get_new_proxy env s1) as [o s2];
            cbn in Hreq, Hframe, Hret; subst o;
            destruct Hframe as (_ & _ & _ & Hloads & _);
            destruct b; cbn
        end;
    lia.
Qed.

Lemma while_runs_cost attempts s outcome :
  while_runs env profile_url attempts s outcome →
  page_loads (world s) ≤ page_loads (world outcome.2) ∧
  page_loads (world outcome.2)
  ≤ page_loads (world s) + (max_attempts - attempts) ∧
  proxyscrape_calls (world s) ≤ proxyscrape_calls (world outcome.2) ∧
  proxyscrape_calls (world outcome.2) - proxyscrape_calls (world s)
  ≤ page_loads (world outcome.2) - page_loads (world s).
Proof.
  induction 1 as [a s Hge | a s result s' Hlt Hrun | a s e s' Hlt Hrun
                 | a s a' s' outcome Hlt Hrun Hrest IH].
  - unfold_M. cbn [fst snd self world page_loads proxyscrape_calls]. lia.
  - pose proof (attempt_counts a s) as Hc. rewrite Hrun in Hc.
    cbn [fst snd] in *. unfold max_attempts in *. lia.
  - pose proof (attempt_counts a s) as Hc. rewrite Hrun in Hc.
    cbn [fst snd] in *. unfold max_attempts in *. lia.
  - pose proof (attempt_counts a s) as Hc. rewrite Hrun in Hc.
    destruct (attempt_returns env profile_url a s) as (flow & Hflow & Hnext).
    rewrite Hrun in Hflow. cbn in Hflow. simplify_eq.
    rewrite (Hnext a' eq_refl) in IH. cbn [fst snd] in *.
    unfold max_attempts in *. lia.
Qed.

Lemma while_runs_counter attempts s outcome :
  while_runs env profile_url attempts s outcome →
  (∃ name location,
     outcome.1 = Returns (Some name, Some location) ∧
     consecutive_failures (self outcome.2) = 0)
  ∨
  (outcome.1 = Returns (None, None) ∧
   consecutive_failures (self s) ≤ consecutive_failures (self outcome.2) ∧
   consecutive_failures (self outcome.2)
   ≤ consecutive_failures (self s) + (max_attempts - attempts) ∧
   (attempts < max_attempts →
    consecutive_failures (self s) < consecutive_failures (self outcome.2))).
Proof.
  induction 1 as [a s Hge | a s result s' Hlt Hrun | a s e s' Hlt Hrun
                 | a s a' s' outcome Hlt Hrun Hrest IH].
  - right. unfold_M. cbn [fst snd self world consecutive_failures].
    repeat split; [lia | lia | done].
  - pose proof (attempt_outcome env profile_url a s) as Hout.
    rewrite Hrun in Hout. cbn [fst snd] in Hout.
    destruct Hout as [(d & page & _ & _ & _ & [n Hn] & [l Hl] & Hres & Hcf)
                     |(_ & Hcf & [Hres | Hres])]; simplify_eq.
    + left. exists n, l. cbn [fst snd]. by rewrite Hn, Hl.
    + right. cbn [fst snd]. unfold max_attempts in *.
      repeat split; [lia | lia | lia].
  - destruct (attempt_returns env profile_url a s) as (flow & Hflow & _).
    rewrite Hrun in Hflow. discriminate Hflow.
  - pose proof (attempt_outcome env profile_url a s) as Hout.
    rewrite Hrun in Hout. cbn [fst snd] in Hout.
    destruct Hout as [(d & page & _ & _ & _ & _ & _ & Hres & _)
                     |(_ & Hcf & _)]; [discriminate Hres |].
    destruct (attempt_returns env profile_url a s) as (flow & Hflow & Hnext).
    rewrite Hrun in Hflow. cbn in Hflow. simplify_eq.
    rewrite (Hnext a' eq_refl) in IH.
    destruct IH as [Hsuccess | (Hres & Hle & Hmax & _)]; [by left |].
    right. unfold max_attempts in *. repeat split; [done | lia | lia | lia].
Qed.

(** X8: one call of [extract_profile_info] loads at most
    [max_attempts] = 5 pages, and asks the provider for at most as
    many proxies as it loaded pages. *)
Theorem extract_profile_info_cost s :
  let s' := (extract_profile_info env profile_url s).2 in
  page_loads (world s') - page_loads (world s) ≤ max_attempts ∧
  proxyscrape_calls (world s') - proxyscrape_calls (world s)
  ≤ page_loads (world s') - page_loads (world s).
Proof.
  destruct (while_runs_cost 0 s _ (extract_profile_info_runs env profile_url s))
    as (H1 & H2 & H3 & H4).
  cbv zeta. unfold max_attempts in *. lia.
Qed.

(** X9: [extract_profile_info] returns a name and a location with
    [consecutive_failures] at 0, or [(None, None)] with
    [consecutive_failures] grown by at least 1 and at most 5; so after
    a call the counter is 0 exactly when the call found the fields. *)
Theorem extract_profile_info_counter s :
  let r := extract_profile_info env profile_url s in
  (∃ name location,
     r.1 = Returns (Some name, Some location) ∧
     consecutive_failures (self r.2) = 0)
  ∨
  (r.1 = Returns (None, None) ∧
   consecutive_failures (self s) < consecutive_failures (self r.2) ∧
   consecutive_failures (self r.2)
   ≤ consecutive_failures (self s) + max_attempts).
Proof.
  destruct (while_runs_counter 0 s _
              (extract_profile_info_runs env profile_url s))
    as [Hsuccess | (Hres & _ & Hmax & Hlt)]; [by left |].
  right. cbv zeta. unfold max_attempts in *. repeat split; [done | | lia].
  apply Hlt. lia.
Qed.

(** X10: a heading that is there but blank counts as found: when the
    page passes the checks and the text of the name element is white
    space only, the attempt returns the empty name with the location
    and resets [consecutive_failures], without asking for a proxy; the
    row then keeps the [first_name] and [last_name] it had. *)
Theorem blank_name_is_success attempts s d page text location row :
  driver (self s) = Some d →
  navigate env (page_loads (world s)) d profile_url = NavLoaded page →
  is_error_page page = false →
  is_login_wall page = false →
  on_linkedin page = true →
  find_name env (page_source page) = Some text →
  PyStr.strip text = "" →
  extract_location env page = Some location →
  let r := attempt env profile_url attempts s in
  r.1 = Returns (Return (Some "", Some location)) ∧
  consecutive_failures (self r.2) = 0 ∧
  proxyscrape_calls (world r.2) = proxyscrape_calls (world s) ∧
  cell (fill_row row (Some "") (Some location)) "first_name"
  = cell row "first_name" ∧
  cell (fill_row row (Some "") (Some location)) "last_name"
  = cell row "last_name".
Proof.
  intros Hd Hnav Herr Hlogin Hlinked Hname Hblank Hloc.
  assert (Hextract : extract_name env page = Some "").
  { unfold extract_name. rewrite Hname. cbn. by rewrite Hblank. }
  destruct s as [[key cf cp drv] [pc hc cl pl lg fs]].
  cbn in Hd, Hnav. subst drv. cbv zeta. split; [| split; [| split]].
  - run_attempt. rewrite Hnav. cbn. rewrite Herr, Hlogin, Hlinked. cbn.
    unfold name_or_location_is_None. rewrite Hextract, Hloc. done.
  - run_attempt. rewrite Hnav. cbn. rewrite Herr, Hlogin, Hlinked. cbn.
    unfold name_or_location_is_None. rewrite Hextract, Hloc. done.
  - run_attempt. rewrite Hnav. cbn. rewrite Herr, Hlogin, Hlinked. cbn.
    unfold name_or_location_is_None. rewrite Hextract, Hloc. done.
  - unfold fill_row. cbn [PyStr.truthy_opt PyStr.truthy].
    destruct (PyStr.truthy location);
      rewrite ?cell_setitem; repeat case_decide; done.
Qed.

End Cost.

Lemma blank_name_is_success_witness :
  (attempt Scenario.blank_heading Scenario.jane_url 0
     (Scenario.start Scenario.blank_heading)).1
  = Returns (Return (Some "", Some "Remote")).
Proof.
  refine (proj1 (blank_name_is_success Scenario.blank_heading
                   Scenario.jane_url 0
                   (Scenario.start Scenario.blank_heading)
                   {| drv_proxy := None; drv_quit := false |}
                   Scenario.jane_page "  " "Remote" Scenario.blank_row
                   _ _ _ _ _ _ _ _));
    vm_compute; reflexivity.
Defined.

(** ** C3: the counter from target to target *)

(** The counter when [process_row] calls [extract_profile_info]: lines
    190-194 have reset it when it had reached 5. *)
Lemma target_start_counter env row profile_url s :
  consecutive_failures (self (target_start env row profile_url s))
  = if 5 <=? consecutive_failures (self s) then 0
    else consecutive_failures (self s).
Proof.
  destruct s as [[key cf cp drv] [pc hc cl pl lg fs]].
  unfold target_start, rotate_if_needed. unfold_M. cbn -[Nat.leb].
  destruct (5 <=? cf); [| done].
  match goal with
  | |- context [get_new_proxy env ?s1] =>
      destruct (get_new_proxy_returns env s1) as [b Hret];
      destruct (get_new_proxy env s1) as [o s2];
      cbn in Hret; subst o
  end.
  reflexivity.
Qed.

(** When the rotation of line 192 fails, lines 193-194 are run all the
    same: the row is marked and the counter reset, and the browser
    keeps the proxy it had. *)
Lemma rotate_if_needed_failed env row s :
  5 ≤ consecutive_failures (self s) →
  (get_new_proxy env (logger WARNING FiveConsecutiveFailures s).2).1
  = Returns false →
  let r := rotate_if_needed env row s in
  r.1 = Returns (setitem row "IP change" "rotation") ∧
  consecutive_failures (self r.2) = 0 ∧
  drv_proxy <$> driver (self r.2) = drv_proxy <$> driver (self s).
Proof.
  intros Hle Hfalse. apply Nat.leb_le in Hle.
  destruct s as [[key cf cp drv] [pc hc cl pl lg fs]].
  unfold rotate_if_needed. unfold_M. cbn -[Nat.leb] in *. rewrite Hle.
  match goal with
  | |- context [get_new_proxy env ?s1] =>
      destruct (get_new_proxy env s1) as [o s2] eqn:Hrun
  end.
  cbn in Hrun. rewrite Hrun in Hfalse. cbn in Hfalse. subst o.
  apply get_new_proxy_False in Hrun. cbn in Hrun. cbn. done.
Qed.

(** C3, amended: within the attempts of one target (one call of
    [extract_profile_info]) [consecutive_failures] grows by exactly 1
    on each failure, classified or generic, and is set to 0 on a
    success classification, and only then.  From target to target
    there is one more reset: at the start of a target
    [process_profiles] sets the counter to 0 when it has reached 5
    (line 194).  So a target that ends on a success leaves the counter
    at 0, and a target that is given up leaves it at its value at the
    start of the target, after that reset, plus the failures of the
    target, between 1 and [max_attempts]. *)
Theorem consecutive_failures_counts_failures env profile_url :
  (∀ attempts s,
     let s' := (attempt env profile_url attempts s).2 in
     ((∃ d page,
         driver (self s) = Some d ∧
         navigate env (page_loads (world s)) d profile_url = NavLoaded page ∧
         classify_page env page = Success) ∧
      consecutive_failures (self s') = 0)
     ∨
     ((∀ d page,
         driver (self s) = Some d →
         navigate env (page_loads (world s)) d profile_url = NavLoaded page →
         classify_page env page ≠ Success) ∧
      consecutive_failures (self s') = consecutive_failures (self s) + 1)) ∧
  (∀ attempts s attempts' s',
     rtc (loop_step env profile_url) (attempts, s) (attempts', s') →
     attempts ≤ attempts' ∧
     consecutive_failures (self s')
     = consecutive_failures (self s) + (attempts' - attempts)) ∧
  (∀ row s,
     let r := outcome_of_target env row profile_url s in
     let at_start :=
       if 5 <=? consecutive_failures (self s) then 0
       else consecutive_failures (self s) in
     consecutive_failures (self (target_start env row profile_url s))
     = at_start ∧
     ((∃ name location,
         r.1 = Returns (Some name, Some location) ∧
         consecutive_failures (self r.2) = 0)
      ∨
      (r.1 = Returns (None, None) ∧
       at_start < consecutive_failures (self r.2) ∧
       consecutive_failures (self r.2) ≤ at_start + max_attempts))).
Proof.
  destruct (counter_within_target env profile_url) as [Hattempt Hloop].
  split; [exact Hattempt |]. split; [exact Hloop |].
  intros row s. cbv zeta.
  split; [apply target_start_counter |].
  rewrite outcome_of_target_from_start.
  rewrite <- (target_start_counter env row profile_url s).
  destruct (while_runs_counter env profile_url 0 _ _
              (extract_profile_info_runs env profile_url
                 (target_start env row profile_url s)))
    as [Hsuccess | (Hres & _ & Hmax & Hlt)]; [by left |].
  right. unfold max_attempts in *. repeat split; [done | | lia].
  apply Hlt. lia.
Qed.

Lemma consecutive_failures_counts_failures_witness :
  0 ≤ 1 ∧
  consecutive_failures
    (self (attempt Scenario.offline Scenario.jane_url 0
             (Scenario.start Scenario.offline)).2)
  = consecutive_failures (self (Scenario.start Scenario.offline)) + (1 - 0).
Proof.
  apply (proj1 (proj2 (consecutive_failures_counts_failures Scenario.offline
                         Scenario.jane_url))).
  apply rtc_once. apply loop_step_continue; [unfold max_attempts; lia |].
  vm_compute. reflexivity.
Defined.

(** ** The run of [process_profiles], case by case *)

Section Run.

Variable env : Env.
Variable csv_file : string.

(** Once the file has been read, the run goes on from the state with
    the header written. *)
Lemma process_profiles_after_header s records :
  files (world s) !! csv_file = Some records →
  process_profiles env csv_file s =
    try_finally
      (try_except
         (match DictReader records with
          | row :: _ =>
              profile_url ← getitem row "prooflink";
              if negb (PyStr.truthy_opt profile_url) then
                logger WARNING NoProfileUrl
              else
                process_row env csv_file row (default "" profile_url)
          | [] => ret tt
          end)
         (λ e, logger ERROR ErrorProcessingProfiles))
      quit_driver (header_written csv_file s).
Proof.
  intros Hfile.
  unfold process_profiles, header_written, try_finally, try_except,
    open_read, bind, get_world.
  cbv beta iota. rewrite Hfile. reflexivity.
Qed.

Lemma rotate_if_needed_row row s :
  (rotate_if_needed env row s).1
  = Returns (if 5 <=? consecutive_failures (self s)
             then setitem row "IP change" "rotation" else row).
Proof.
  destruct s as [[key cf cp drv] [pc hc cl pl lg fs]].
  unfold rotate_if_needed. unfold_M. cbn -[Nat.leb].
  destruct (5 <=? cf); cbn; [| done].
  by call_get_new_proxy env.
Qed.

(** [process_row] is the outcome of the target and one [writerow]. *)
Lemma process_row_exact row profile_url s :
  ∃ result s2,
    outcome_of_target env row profile_url s = (Returns result, s2) ∧
    files (world s2) = files (world s) ∧
    process_row env csv_file row profile_url s
    = writerow csv_file
        (fill_row (if 5 <=? consecutive_failures (self s)
                   then setitem row "IP change" "rotation" else row)
                  result.1 result.2) s2.
Proof.
  unfold process_row, outcome_of_target.
  unfold bind at 1 4. unfold logger at 1 2. unfold_M. cbn -[Nat.leb].
  match goal with
  | |- context [rotate_if_needed env row ?s0] =>
      pose proof (rotate_if_needed_row row s0) as Hrow;
      destruct (rotate_if_needed_returns env row s0)
        as (row1 & s1 & Hrot & Hfiles1 & _)
  end.
  rewrite Hrot in Hrow |- *. cbn -[Nat.leb] in Hrow, Hfiles1.
  injection Hrow as ->.
  destruct (extract_profile_info_returns env profile_url s1)
    as (result & s2 & Hext & _ & Hfiles2 & _).
  rewrite Hext. destruct result as [name location].
  exists (name, location), s2.
  split; [done |]. split; [congruence |]. done.
Qed.

Lemma no_wrong_fields_setitem_false row key value :
  no_wrong_fields row = false →
  no_wrong_fields (setitem row key value) = false.
Proof.
  unfold no_wrong_fields, setitem. cbn [fields rest].
  rewrite !andb_false_iff. intros [Hdom | Hrest]; [left | by right].
  apply bool_decide_eq_false in Hdom. apply bool_decide_eq_false.
  intros Hsub. apply Hdom. intros k Hk. apply Hsub.
  rewrite dom_insert. apply elem_of_union. by right.
Qed.

Lemma no_wrong_fields_fill_row_false row name location :
  no_wrong_fields row = false →
  no_wrong_fields (fill_row row name location) = false.
Proof.
  intros Hrow. unfold fill_row.
  repeat case_match; repeat apply no_wrong_fields_setitem_false; done.
Qed.

Lemma process_profiles_missing_file s :
  files (world s) !! csv_file = None →
  let r := process_profiles env csv_file s in
  r.1 = Returns tt ∧
  files (world r.2) = files (world s) ∧
  log (world r.2)
  = (log (world s) ++ [(ERROR, ErrorProcessingProfiles)])%list ∧
  page_loads (world r.2) = page_loads (world s) ∧
  proxyscrape_calls (world r.2) = proxyscrape_calls (world s) ∧
  browser_released (self r.2).
Proof.
  intros Hfile. unfold process_profiles, open_read, quit_driver,
    browser_released.
  unfold_M. cbn. rewrite Hfile. cbn.
  destruct (driver (self s)) eqn:Hd; cbn; rewrite ?Hd; done.
Qed.

(** X11: when the CSV file is not there, [process_profiles] logs the
    error and returns; it creates no file, loads no page, asks for no
    proxy, and quits the browser. *)
Theorem missing_file_is_logged s :
  files (world s) !! csv_file = None →
  let r := process_profiles env csv_file s in
  r.1 = Returns tt ∧
  files (world r.2) = files (world s) ∧
  log (world r.2)
  = (log (world s) ++ [(ERROR, ErrorProcessingProfiles)])%list ∧
  page_loads (world r.2) = page_loads (world s) ∧
  proxyscrape_calls (world r.2) = proxyscrape_calls (world s) ∧
  browser_released (self r.2).
Proof.
  intros Hfile. cbv zeta.
  unfold process_profiles, open_read, try_finally, try_except.
  unfold quit_driver, browser_released. unfold_M. cbn.
  rewrite Hfile. cbn.
  destruct (driver (self s)) as [d|] eqn:Hd; cbn; rewrite ?Hd; done.
Qed.

Lemma process_profiles_quits s :
  browser_released (self (process_profiles env csv_file s).2).
Proof.
  unfold process_profiles, try_finally.
  match goal with
  | |- context [try_except ?body ?handler s] =>
      destruct (try_except body handler s) as [o s1]
  end.
  unfold quit_driver, browser_released. unfold_M. cbn.
  destruct (driver (self s1)) eqn:Hd; cbn; [done | by rewrite Hd].
Qed.

(** X12: whatever the file and the outside world, after
    [process_profiles] the browser has been quit. *)
Theorem browser_released_after_run s :
  browser_released (self (process_profiles env csv_file s).2).
Proof.
  unfold process_profiles, try_finally.
  match goal with
  | |- context [try_except ?body ?handler s] =>
      destruct (try_except body handler s) as [outcome s1]
  end.
  unfold quit_driver, browser_released. unfold_M. cbn.
  destruct (driver (self s1)) as [d|] eqn:Hd; cbn.
  - reflexivity.
  - by rewrite Hd.
Qed.

(** X13: a first row with a column outside the five field names, or
    with more cells than the header, is lost: the pages are loaded,
    but [writerow] raises, the error is logged, and the file is left
    with the header only. *)
Theorem row_with_wrong_fields_is_lost s records row rows profile_url :
  files (world s) !! csv_file = Some records →
  DictReader records = row :: rows →
  fields row !! "prooflink" = Some (Some profile_url) →
  PyStr.truthy profile_url = true →
  no_wrong_fields row = false →
  let r := process_profiles env csv_file s in
  r.1 = Returns tt ∧
  files (world r.2) !! csv_file = Some [fieldnames] ∧
  last (log (world r.2)) = Some (ERROR, ErrorProcessingProfiles).
Proof.
  intros Hfile Hrows Hlink Htruthy Hwrong. cbv zeta.
  rewrite (process_profiles_after_header s records Hfile).
  destruct (header_written_state csv_file s) as (_ & Hheader & _).
  set (s0 := header_written csv_file s) in *. clearbody s0.
  unfold try_finally, try_except, quit_driver, getitem. unfold_M. cbv beta.
  rewrite Hrows, Hlink. cbv beta iota.
  cbn [PyStr.truthy_opt]. rewrite Htruthy. cbn [negb]. cbv beta iota.
  change (default "" (Some profile_url)) with profile_url.
  destruct (process_row_exact row profile_url s0)
    as (result & s2 & _ & Hfiles2 & ->).
  unfold writerow.
  rewrite no_wrong_fields_fill_row_false.
  2: { destruct (5 <=? _); [by apply no_wrong_fields_setitem_false | done]. }
  unfold_M. cbn.
  destruct (driver (self s2)); cbn;
    (split; [done |]); (split; [by rewrite Hfiles2 |]);
    by rewrite last_snoc.
Qed.

(** X14: [process_profiles] writes to [csv_file] and, through the
    logger, to [log_file]; every other file is as it was. *)
Theorem other_files_untouched s path :
  path ≠ csv_file →
  path ≠ log_file →
  files (world (process_profiles env csv_file s).2) !! path
  = files (world s) !! path.
Proof.
  intros Hpath _.
  destruct (files (world s) !! csv_file) as [records|] eqn:Hfile.
  2: { by destruct (process_profiles_missing_file s Hfile) as (_ & -> & _). }
  rewrite (process_profiles_after_header s records Hfile).
  assert (Hheader : files (world (header_written csv_file s)) !! path
                    = files (world s) !! path).
  { unfold header_written, open_write, writeheader, write_record.
    unfold_M. cbn. by rewrite lookup_alter_ne, lookup_insert_ne. }
  set (s0 := header_written csv_file s) in *. clearbody s0.
  rewrite <- Hheader. clear Hheader Hfile.
  unfold try_finally, try_except, quit_driver, getitem. unfold_M. cbv beta.
  destruct (DictReader records) as [|row rows].
  { cbn. by destruct (driver (self s0)). }
  destruct (fields row !! "prooflink") as [value|].
  2: { cbn. by destruct (driver (self s0)). }
  cbv beta iota.
  destruct (PyStr.truthy_opt value); cbn [negb]; cbv beta iota.
  2: { cbn. by destruct (driver (self s0)). }
  destruct (process_row_exact row (default "" value) s0)
    as (result & s2 & _ & Hfiles2 & ->).
  unfold writerow. rewrite <- Hfiles2.
  destruct (no_wrong_fields _); unfold write_record; unfold_M; cbn.
  - destruct (driver (self s2)); cbn; by rewrite lookup_alter_ne.
  - by destruct (driver (self s2)).
Qed.

End Run.

Lemma missing_file_is_logged_witness :
  (process_profiles Scenario.friendly "nowhere.csv"
     (Scenario.start Scenario.friendly)).1 = Returns tt.
Proof.
  refine (proj1 (missing_file_is_logged Scenario.friendly "nowhere.csv"
                   (Scenario.start Scenario.friendly) _)).
  vm_compute. reflexivity.
Defined.

Lemma row_with_wrong_fields_is_lost_witness :
  let r := process_profiles Scenario.friendly Scenario.csv_file
             (with_file Scenario.csv_file Scenario.long_records
                (Scenario.start Scenario.friendly)) in
  files (world r.2) !! Scenario.csv_file = Some [fieldnames].
Proof.
  cbv zeta.
  destruct (row_with_wrong_fields_is_lost Scenario.friendly
              Scenario.csv_file
              (with_file Scenario.csv_file Scenario.long_records
                 (Scenario.start Scenario.friendly))
              Scenario.long_records
              (dict_of_record fieldnames
                 [""; ""; ""; Scenario.jane_url; ""; "note"])
              [] Scenario.jane_url)
    as (_ & Hfile & _).
  - vm_compute. reflexivity.
  - vm_compute. reflexivity.
  - vm_compute. reflexivity.
  - vm_compute. reflexivity.
  - vm_compute. reflexivity.
  - exact Hfile.
Defined.

Lemma other_files_untouched_witness :
  files (world (process_profiles Scenario.friendly Scenario.csv_file
                  (with_file "notes.csv" [["kept"]]
                     (Scenario.start Scenario.friendly))).2) !! "notes.csv"
  = Some [["kept"]].
Proof.
  rewrite (other_files_untouched Scenario.friendly Scenario.csv_file
             (with_file "notes.csv" [["kept"]]
                (Scenario.start Scenario.friendly)) "notes.csv").
  - vm_compute. reflexivity.
  - vm_compute. discriminate.
  - vm_compute. discriminate.
Defined.

(** ** Rows read and written back *)

(** X15: under the header of the five field names, a record of at most
    five cells is read into a row that [writerow] accepts and writes
    back as it was, filled up with empty cells; a longer record gives
    a row that [writerow] refuses. *)
Theorem record_read_and_written_back record :
  (length record ≤ 5 →
   no_wrong_fields (dict_of_record fieldnames record) = true ∧
   cell (dict_of_record fieldnames record) <$> fieldnames
   = take 5 (record ++ replicate 5 "")) ∧
  (5 < length record →
   no_wrong_fields (dict_of_record fieldnames record) = false).
Proof.
  destruct record as [|a [|b [|c [|d [|e [|f record]]]]]]; cbn [length].
  1-5: split; [intros _; split; vm_compute; reflexivity | lia].
  - split; [intros _; split; vm_compute; reflexivity | lia].
  - split; [lia | intros _].
    unfold no_wrong_fields, dict_of_record.
    cbn [rest length Nat.ltb Nat.leb].
    rewrite andb_false_iff. by right.
Qed.

Lemma record_read_and_written_back_witness :
  cell (dict_of_record fieldnames ["Jane"; "Doe"]) <$> fieldnames
  = ["Jane"; "Doe"; ""; ""; ""].
Proof.
  refine (proj2 (proj1 (record_read_and_written_back ["Jane"; "Doe"]) _)).
  cbn. lia.
Defined.

Section FirstRow.

Variable env : Env.
Variable csv_file : string.

Lemma header_written_with_file records records' s :
  header_written csv_file (with_file csv_file records s)
  = header_written csv_file (with_file csv_file records' s).
Proof.
  unfold header_written, with_file, open_write, writeheader, write_record.
  unfold_M. cbn. by rewrite !insert_insert_eq.
Qed.

(** X16: only the first row counts: two files whose first rows agree
    give the same run, whatever their other rows are. *)
Theorem only_first_row_counts records records' s :
  head (DictReader records) = head (DictReader records') →
  process_profiles env csv_file (with_file csv_file records s)
  = process_profiles env csv_file (with_file csv_file records' s).
Proof.
  intros Hhead.
  rewrite (process_profiles_after_header env csv_file _ records),
    (process_profiles_after_header env csv_file _ records');
    [| by apply lookup_insert_eq | by apply lookup_insert_eq].
  rewrite (header_written_with_file records records').
  destruct (DictReader records) as [|row rows],
    (DictReader records') as [|row' rows']; cbn in Hhead;
    by simplify_eq.
Qed.

(** X17: a target that is given up while [consecutive_failures] is
    below 5 is written back as it was read: for a file under the five
    field names whose first record has five cells and a non-empty
    [prooflink], the file afterwards holds the header and that record,
    unchanged. *)
Theorem abandoned_row_written_back s record data profile_url :
  files (world s) !! csv_file = Some (fieldnames :: record :: data) →
  length record = 5 →
  record !! 3 = Some profile_url →
  PyStr.truthy profile_url = true →
  consecutive_failures (self s) < 5 →
  (outcome_of_target env (dict_of_record fieldnames record) profile_url
     (header_written csv_file s)).1 = Returns (None, None) →
  let r := process_profiles env csv_file s in
  r.1 = Returns tt ∧
  files (world r.2) !! csv_file = Some [fieldnames; record].
Proof.
  intros Hfile Hlen Hurl Htruthy Hcf Hgiven_up. cbv zeta.
  destruct record as [|a [|b [|c [|d [|e [|f record]]]]]]; try done.
  cbn in Hurl. injection Hurl as ->.
  rewrite (process_profiles_after_header env csv_file s _ Hfile).
  destruct (header_written_state csv_file s) as (Hself & Hheader & _).
  set (s0 := header_written csv_file s) in *. clearbody s0.
  change (DictReader (fieldnames :: [a; b; c; profile_url; e] :: data))
    with (dict_of_record fieldnames [a; b; c; profile_url; e]
          :: DictReader (fieldnames :: data)).
  set (row := dict_of_record fieldnames [a; b; c; profile_url; e]) in *.
  assert (Hlink : fields row !! "prooflink" = Some (Some profile_url))
    by (vm_compute; reflexivity).
  assert (Hcells : cell row <$> fieldnames = [a; b; c; profile_url; e])
    by (vm_compute; reflexivity).
  assert (Hfields : no_wrong_fields row = true) by (vm_compute; reflexivity).
  clearbody row.
  unfold try_finally, try_except, quit_driver, getitem. unfold_M. cbv beta.
  rewrite Hlink. cbv beta iota.
  cbn [PyStr.truthy_opt]. rewrite Htruthy. cbn [negb]. cbv beta iota.
  change (default "" (Some profile_url)) with profile_url.
  destruct (process_row_exact env csv_file row profile_url s0)
    as (result & s2 & Hout & Hfiles2 & ->).
  rewrite Hout in Hgiven_up. cbn in Hgiven_up. injection Hgiven_up as ->.
  rewrite Hself. apply Nat.leb_gt in Hcf. rewrite Hcf.
  cbn [fst snd]. rewrite fill_row_None.
  unfold writerow. rewrite Hfields. unfold write_record. unfold_M.
  cbn in Hcells |- *.
  destruct (driver (self s2)); cbn;
    (split; [done |]);
    by rewrite lookup_alter_eq, Hfiles2, Hheader, Hcells.
Qed.

(** A run that starts below the threshold never takes its branch. *)
Lemma process_profiles_no_rotation s :
  consecutive_failures (self s) < 5 →
  proactive_rotations (log (world (process_profiles env csv_file s).2))
  = proactive_rotations (log (world s)).
Proof.
  intros Hcf.
  destruct (files (world s) !! csv_file) as [records|] eqn:Hfile.
  2: { destruct (process_profiles_missing_file env csv_file s Hfile)
         as (_ & _ & -> & _).
       by rewrite proactive_rotations_app, Nat.add_0_r. }
  rewrite (process_profiles_after_header env csv_file s records Hfile).
  destruct (header_written_state csv_file s) as (Hself & Hheader & Hlog & _).
  set (s0 := header_written csv_file s) in *. clearbody s0.
  rewrite <- Hlog. clear Hlog Hfile.
  unfold try_finally, try_except, quit_driver, getitem. unfold_M. cbv beta.
  destruct (DictReader records) as [|row rows].
  { cbn. by destruct (driver (self s0)). }
  destruct (fields row !! "prooflink") as [value|].
  2: { cbn. destruct (driver (self s0)); cbn;
         by rewrite proactive_rotations_app, Nat.add_0_r. }
  cbv beta iota.
  destruct (PyStr.truthy_opt value); cbn [negb]; cbv beta iota.
  2: { cbn. destruct (driver (self s0)); cbn;
         by rewrite proactive_rotations_app, Nat.add_0_r. }
  destruct (process_row_runs env csv_file row (default "" value) s0
              [fieldnames] Hheader)
    as (_ & _ & _ & _ & _ & _ & Hcount & _).
  rewrite Hself in Hcount. apply Nat.leb_gt in Hcf. rewrite Hcf in Hcount.
  rewrite Nat.add_0_r in Hcount. rewrite <- Hcount.
  destruct (process_row env csv_file row (default "" value) s0)
    as [[[]|e] s3]; cbn.
  - by destruct (driver (self s3)).
  - destruct (driver (self s3)); cbn;
      by rewrite proactive_rotations_app, Nat.add_0_r.
Qed.

End FirstRow.

Lemma only_first_row_counts_witness :
  process_profiles Scenario.friendly Scenario.csv_file
    (with_file Scenario.csv_file Scenario.input_records Scenario.blank)
  = process_profiles Scenario.friendly Scenario.csv_file
      (with_file Scenario.csv_file (take 2 Scenario.input_records)
         Scenario.blank).
Proof.
  apply (only_first_row_counts Scenario.friendly Scenario.csv_file).
  vm_compute. reflexivity.
Defined.

Lemma abandoned_row_written_back_witness :
  files (world (process_profiles Scenario.provider_down Scenario.csv_file
                  (Scenario.start Scenario.provider_down)).2)
    !! Scenario.csv_file
  = Some [fieldnames; [""; ""; ""; Scenario.jane_url; ""]].
Proof.
  refine (proj2 (abandoned_row_written_back Scenario.provider_down
                   Scenario.csv_file (Scenario.start Scenario.provider_down)
                   [""; ""; ""; Scenario.jane_url; ""]
                   [[""; ""; ""; "https://www.linkedin.com/in/john-roe"; ""]]
                   Scenario.jane_url _ _ _ _ _ _)).
  - vm_compute. reflexivity.
  - reflexivity.
  - reflexivity.
  - reflexivity.
  - vm_compute. lia.
  - vm_compute. reflexivity.
Defined.

(** ** [main] *)

Section Main.

Variable env : Env.

(** [__init__] starts the browser without a proxy, or raises. *)
Lemma init_runs key s :
  let r := init env key s in
  files (world r.2) = files (world s) ∧
  page_loads (world r.2) = page_loads (world s) ∧
  log (world r.2) = (log (world s) ++ [(INFO, SettingUpDriver)])%list ∧
  if chrome env (chrome_launches (world s))
  then r.1 = Returns tt ∧
       self r.2 = {| api_key := key; consecutive_failures := 0;
                     current_proxy := None;
                     driver := Some {| drv_proxy := None;
                                       drv_quit := false |} |}
  else r.1 = Raises WebDriverException.
Proof.
  destruct s as [[key0 cf cp drv] [pc hc cl pl lg fs]].
  unfold init, setup_driver, webdriver_Chrome. unfold_M. cbn.
  by destruct (chrome env cl).
Qed.

(** X18: [main] raises exactly when Chrome cannot be started for the
    new scraper, and then neither reads nor writes the CSV file;
    otherwise it returns with the browser quit, and, the counter
    starting at 0, without ever taking the branch of the rotation
    threshold. *)
Theorem main_runs key s :
  let r := main env key s in
  if chrome env (chrome_launches (world s))
  then r.1 = Returns tt ∧
       browser_released (self r.2) ∧
       proactive_rotations (log (world r.2))
       = proactive_rotations (log (world s))
  else r.1 = Raises WebDriverException ∧
       files (world r.2) = files (world s) ∧
       page_loads (world r.2) = page_loads (world s).
Proof.
  cbv zeta. unfold main. unfold bind.
  pose proof (init_runs key s) as (Hfiles & Hloads & Hlog & Hinit).
  destruct (init env key s) as [o s1]. cbn [fst snd] in *.
  destruct (chrome env (chrome_launches (world s))).
  - destruct Hinit as [-> Hself]. split; [| split].
    + destruct (files (world s1) !! "ProfilesListExample.csv")
        as [records|] eqn:Hfile.
      * by destruct (process_profiles_runs env _ s1 records Hfile).
      * by destruct (process_profiles_no_file env _ s1 Hfile).
    + apply process_profiles_quits.
    + rewrite process_profiles_no_rotation by (rewrite Hself; cbn; lia).
      by rewrite Hlog, proactive_rotations_app, Nat.add_0_r.
  - by subst o.
Qed.

End Main.

(** ** Runs without a target *)

Section NoTarget.

Variable env : Env.
Variable csv_file : string.

Lemma foldl_insert_lookup_None (key : string)
    (l : list (string * option string)) (m : gmap string (option string)) :
  m !! key = None →
  Forall (λ kv, kv.1 ≠ key) l →
  foldl (λ d kv, <[kv.1 := kv.2]> d) m l !! key = None.
Proof.
  revert m. induction l as [|kv l IH]; intros m Hm Hl; cbn; [done |].
  apply Forall_cons in Hl as [Hkv Hl].
  apply IH; [| done]. by rewrite lookup_insert_ne.
Qed.

(** A name that is not in the header is not a key of the row. *)
Lemma dict_of_record_lookup_None header record key :
  key ∉ header →
  fields (dict_of_record header record) !! key = None.
Proof.
  intros Hkey. unfold dict_of_record. cbn [fields].
  apply foldl_insert_lookup_None; [done |].
  apply Forall_app. split.
  - apply Forall_forall. intros [k v] Hin Heq. cbn in Heq. subst k.
    apply Hkey. by apply elem_of_zip_l in Hin.
  - apply Forall_forall. intros [k v] Hin Heq. cbn in Heq. subst k.
    apply list_elem_of_fmap in Hin as (k' & [= -> ->] & Hin).
    apply Hkey. by eapply subseteq_drop.
Qed.

(** X19: without a target (no data row, or a first row whose
    [prooflink] is missing or empty) [process_profiles] leaves the file
    with the header only, loads no page and asks for no proxy. *)
Theorem no_target_no_fetch s records :
  files (world s) !! csv_file = Some records →
  match DictReader records with
  | [] => True
  | row :: _ => cell row "prooflink" = ""
  end →
  let r := process_profiles env csv_file s in
  r.1 = Returns tt ∧
  files (world r.2) !! csv_file = Some [fieldnames] ∧
  page_loads (world r.2) = page_loads (world s) ∧
  proxyscrape_calls (world r.2) = proxyscrape_calls (world s) ∧
  consecutive_failures (self r.2) = consecutive_failures (self s).
Proof.
  intros Hfile Hnone. cbv zeta.
  rewrite (process_profiles_after_header env csv_file s records Hfile).
  assert (Hstate : self (header_written csv_file s) = self s ∧
            files (world (header_written csv_file s)) !! csv_file
            = Some [fieldnames] ∧
            page_loads (world (header_written csv_file s))
            = page_loads (world s) ∧
            proxyscrape_calls (world (header_written csv_file s))
            = proxyscrape_calls (world s)).
  { destruct (header_written_state csv_file s) as (? & ? & _ & ?).
    by repeat split. }
  destruct Hstate as (Hself & Hheader & Hloads & Hcalls).
  set (s0 := header_written csv_file s) in *. clearbody s0.
  rewrite <- Hself, <- Hloads, <- Hcalls. clear Hself Hloads Hcalls Hfile.
  unfold try_finally, try_except, quit_driver, getitem. unfold_M. cbv beta.
  destruct (DictReader records) as [|row rows].
  { cbn. by destruct (driver (self s0)). }
  unfold cell in Hnone.
  destruct (fields row !! "prooflink") as [[url|]|].
  - subst url. cbn. by destruct (driver (self s0)).
  - cbn. by destruct (driver (self s0)).
  - cbn. by destruct (driver (self s0)).
Qed.

(** X20: when the header of the file has no [prooflink] column and
    there is a data row, the look-up raises: the error is logged, and
    the file, already opened for writing, is left with the five field
    names only. *)
Theorem missing_prooflink_column s header record data :
  files (world s) !! csv_file = Some (header :: record :: data) →
  record ≠ [] →
  "prooflink" ∉ header →
  let r := process_profiles env csv_file s in
  r.1 = Returns tt ∧
  files (world r.2) !! csv_file = Some [fieldnames] ∧
  last (log (world r.2)) = Some (ERROR, ErrorProcessingProfiles) ∧
  page_loads (world r.2) = page_loads (world s).
Proof.
  intros Hfile Hrecord Hheader. cbv zeta.
  rewrite (process_profiles_after_header env csv_file s _ Hfile).
  destruct (header_written_state csv_file s) as (_ & Hwritten & _ & Hloads).
  set (s0 := header_written csv_file s) in *. clearbody s0.
  rewrite <- Hloads. clear Hloads Hfile.
  assert (Hrows : DictReader (header :: record :: data)
                  = dict_of_record header record
                    :: DictReader (header :: data)).
  { destruct record; [done | reflexivity]. }
  rewrite Hrows.
  unfold try_finally, try_except, quit_driver, getitem. unfold_M. cbv beta.
  rewrite (dict_of_record_lookup_None header record "prooflink" Hheader).
  cbn. destruct (driver (self s0)); cbn; by rewrite last_snoc.
Qed.

End NoTarget.

Lemma no_target_no_fetch_witness :
  files (world (process_profiles Scenario.friendly Scenario.csv_file
                  (with_file Scenario.csv_file [] Scenario.blank)).2)
    !! Scenario.csv_file
  = Some [fieldnames].
Proof.
  refine (proj1 (proj2 (no_target_no_fetch Scenario.friendly
                          Scenario.csv_file
                          (with_file Scenario.csv_file [] Scenario.blank)
                          [] _ _))).
  - vm_compute. reflexivity.
  - exact I.
Defined.

Lemma missing_prooflink_column_witness :
  files (world (process_profiles Scenario.friendly Scenario.csv_file
                  (with_file Scenario.csv_file
                     [["name"; "url"]; ["Jane Doe"; Scenario.jane_url]]
                     Scenario.blank)).2)
    !! Scenario.csv_file
  = Some [fieldnames].
Proof.
  refine (proj1 (proj2 (missing_prooflink_column Scenario.friendly
                          Scenario.csv_file
                          (with_file Scenario.csv_file
                             [["name"; "url"];
                              ["Jane Doe"; Scenario.jane_url]]
                             Scenario.blank)
                          ["name"; "url"] ["Jane Doe"; Scenario.jane_url]
                          [] _ _ _))).
  - vm_compute. reflexivity.
  - discriminate.
  - intros Hin. apply list_elem_of_In in Hin. cbn in Hin.
    destruct Hin as [H | [H | []]]; discriminate H.
Defined.

(** X21: a rotation, whether it succeeds or not, leaves
    [consecutive_failures] and the API key as they were, loads no page,
    raises nothing, and takes no browser away; it makes one request to
    the provider and logs that request first. *)
Theorem get_new_proxy_leaves_the_rest env s :
  let r := get_new_proxy env s in
  (∃ b, r.1 = Returns b) ∧
  consecutive_failures (self r.2) = consecutive_failures (self s) ∧
  api_key (self r.2) = api_key (self s) ∧
  page_loads (world r.2) = page_loads (world s) ∧
  proxyscrape_calls (world r.2) = S (proxyscrape_calls (world s)) ∧
  (is_Some (driver (self s)) → is_Some (driver (self r.2))) ∧
  ∃ records,
    log (world r.2)
    = (log (world s) ++ (INFO, RequestingNewProxy) :: records)%list.
Proof.
  cbv zeta. split; [apply get_new_proxy_returns |].
  destruct (get_new_proxy_frame env s) as (? & ? & _ & ? & ? & _).
  pose proof (get_new_proxy_requests env s).
  do 5 (split; [done |]).
  run_get_new_proxy.
  split_cases; rewrite <- ?app_assoc; cbn; by eexists.
Qed.

(** X22: [process_profiles] does not look at what the rotation of line
    192 returns: when that rotation fails, the row is marked
    ['rotation'] and the counter reset all the same, and the browser
    keeps the proxy it had. *)
Theorem failed_proactive_rotation_is_marked env row s :
  5 ≤ consecutive_failures (self s) →
  (get_new_proxy env (logger WARNING FiveConsecutiveFailures s).2).1
  = Returns false →
  let r := rotate_if_needed env row s in
  r.1 = Returns (setitem row "IP change" "rotation") ∧
  consecutive_failures (self r.2) = 0 ∧
  drv_proxy <$> driver (self r.2) = drv_proxy <$> driver (self s) ∧
  page_loads (world r.2) = page_loads (world s).
Proof.
  intros Hle Hfalse. cbv zeta.
  destruct (rotate_if_needed_failed env row s Hle Hfalse)
    as (Hrow & Hcf & Hdrv).
  do 3 (split; [done |]).
  by destruct (rotate_if_needed_returns env row s)
    as (row1 & s1 & -> & _ & Hloads & _).
Qed.

Lemma failed_proactive_rotation_is_marked_witness :
  let r := rotate_if_needed Scenario.provider_down Scenario.blank_row
             Scenario.after_two_calls in
  r.1 = Returns (setitem Scenario.blank_row "IP change" "rotation") ∧
  consecutive_failures (self r.2) = 0.
Proof.
  cbv zeta.
  destruct (failed_proactive_rotation_is_marked Scenario.provider_down
              Scenario.blank_row Scenario.after_two_calls)
    as (Hrow & Hcf & _).
  - vm_compute. lia.
  - vm_compute. reflexivity.
  - split; [exact Hrow | exact Hcf].
Defined.

Lemma is_login_wall_occurs_witness :
  is_login_wall {| title := "Profile"; page_source := "";
                   current_url := "https://www.linkedin.com/in/loginova" |}
  = true.
Proof.
  apply is_login_wall_occurs.
  exists "https://www.linkedin.com/in/", "ova". left. reflexivity.
Defined.
